(** * ChildGuard: child profile validation, storage and export

    A shallow embedding of the profile logic of the ChildGuard mobile
    application (React Native / Expo, TypeScript):

    - [app/(tabs)/add_child.tsx]: the zod schema [childSchema], the submit
      handler [onSubmit], [handleDelete], [sanitizeForFileSystem], the
      export handler [exportPdfAndImage] and the hidden capture card;
    - [app/(tabs)/index.tsx]: [loadChildren] and [handleDeleteChild];
    - [components/pdf-builder.tsx]: [buildPdfHtml];
    - the revision of the add-child screen that also prints the PDF
      document (module [PdfScreen] below).

    JavaScript strings are sequences of UTF-16 code units, numbers are
    IEEE doubles (finite values are kept as the rationals they denote),
    the asynchronous handlers are programs of a small state, trace and
    exception monad. Console logging, the 30 ms timer of the export and
    the styling of the screens are left out; a confirmation dialog is
    modelled by the button the user presses. *)

From Stdlib Require Import ZArith NArith QArith Qround DecimalN Ascii String.
From Stdlib Require Import List Lia Lqa Bool.
From stdpp Require Import base tactics option list strings.

Set Default Proof Using "Type".
Open Scope N_scope.

(** ** JavaScript strings *)

Module JS.

(** A string value: its UTF-16 code units. *)
Definition jsstring := list N.

(** An ASCII literal of the source, as code units. *)
Definition lit (s : string) : jsstring :=
  map N_of_ascii (list_ascii_of_string s).

(** The double quote character, U+0022. *)
Definition dquote : jsstring := [34].
(** A line feed, U+000A. *)
Definition nl : jsstring := [10].

(** [WhiteSpace] and [LineTerminator] of ECMAScript: what
    [String.prototype.trim] removes and [StringToNumber] skips. *)
Definition isWhiteSpace (c : N) : bool :=
  (c =? 9) || (c =? 10) || (c =? 11) || (c =? 12) || (c =? 13) ||
  (c =? 32) || (c =? 160) || (c =? 5760) ||
  ((8192 <=? c) && (c <=? 8202)) ||
  (c =? 8232) || (c =? 8233) || (c =? 8239) || (c =? 8287) ||
  (c =? 12288) || (c =? 65279).

Fixpoint trimStart (s : jsstring) : jsstring :=
  match s with
  | [] => []
  | c :: s' => if isWhiteSpace c then trimStart s' else s
  end.

Definition trimEnd (s : jsstring) : jsstring :=
  rev (trimStart (rev s)).

(** [s.trim()] *)
Definition trim (s : jsstring) : jsstring := trimEnd (trimStart s).

(** [s.slice(0, n)] for a non-negative [n]. *)
Definition slice0 (n : nat) (s : jsstring) : jsstring := take n s.

(** [a || b] on strings: the empty string is falsy. *)
Definition or_else (a b : jsstring) : jsstring :=
  match a with [] => b | _ => a end.

(** Truthiness of an optional string ([undefined], [null] and the empty
    string are falsy). *)
Definition truthy (a : option jsstring) : bool :=
  match a with Some (_ :: _) => true | _ => false end.

(** The code units of a decimal numeral. *)
Fixpoint uint_units (d : Decimal.uint) : jsstring :=
  match d with
  | Decimal.Nil => []
  | Decimal.D0 d => 48 :: uint_units d
  | Decimal.D1 d => 49 :: uint_units d
  | Decimal.D2 d => 50 :: uint_units d
  | Decimal.D3 d => 51 :: uint_units d
  | Decimal.D4 d => 52 :: uint_units d
  | Decimal.D5 d => 53 :: uint_units d
  | Decimal.D6 d => 54 :: uint_units d
  | Decimal.D7 d => 55 :: uint_units d
  | Decimal.D8 d => 56 :: uint_units d
  | Decimal.D9 d => 57 :: uint_units d
  end.

(** [n.toString()] for a non-negative integer below 10^21, such as a
    reading of [Date.now()]: its decimal digits. *)
Definition toString_int (n : N) : jsstring := uint_units (N.to_uint n).

End JS.

Import JS.

(** ** Export names: [sanitizeForFileSystem] *)

Module FileName.

(** The character class [[a-z0-9-_]] under the [i] flag (no [u] flag:
    case folding never maps a code unit above 127 into ASCII). *)
Definition in_class (c : N) : bool :=
  ((97 <=? c) && (c <=? 122)) || ((65 <=? c) && (c <=? 90)) ||
  ((48 <=? c) && (c <=? 57)) || (c =? 45) || (c =? 95).

Definition underscore : N := 95.

(** [s.replace(/[^a-z0-9-_]+/gi, "_")]: scanning left to right, each
    match is a maximal run of code units outside the class ([+] is
    greedy); [in_run] tells that the current run was already replaced. *)
Fixpoint replace_scan (in_run : bool) (s : jsstring) : jsstring :=
  match s with
  | [] => []
  | c :: s' =>
      if in_class c then c :: replace_scan false s'
      else if in_run then replace_scan true s'
      else underscore :: replace_scan true s'
  end.

Definition replace_offending (s : jsstring) : jsstring := replace_scan false s.

Definition fallback : jsstring := lit "child".

(** [sanitizeForFileSystem] of add_child.tsx. *)
Definition sanitizeForFileSystem (value : jsstring) : jsstring :=
  let clean := replace_offending (trim value) in
  if (0 <? length clean)%nat then slice0 40 clean else fallback.

(** The naming rule as the specification words it: every code unit outside
    the class becomes one underscore, the result is cut to 40 and the
    default name stands in for an empty result. *)
Definition replace_each (s : jsstring) : jsstring :=
  map (fun c => if in_class c then c else underscore) s.

Definition spec_name (value : jsstring) : jsstring :=
  let clean := replace_each value in
  match clean with [] => fallback | _ => slice0 40 clean end.

(** One underscore for each maximal run of offending code units. *)
Inductive RunsReplaced : jsstring -> jsstring -> Prop :=
  | runs_nil : RunsReplaced [] []
  | runs_keep c s t :
      in_class c = true -> RunsReplaced s t -> RunsReplaced (c :: s) (c :: t)
  | runs_run r s t :
      r <> [] -> Forall (fun c => in_class c = false) r ->
      (forall c, head s = Some c -> in_class c = true) ->
      RunsReplaced s t -> RunsReplaced (r ++ s) (underscore :: t).

End FileName.

(** ** JavaScript numbers and the [Number(...)] coercion *)

Module Num.

(** An IEEE double: not-a-number, an infinity, or a finite value, kept as
    the rational it denotes (the sign of zero is not tracked). *)
Inductive number :=
  | NaN
  | Infinity (negative : bool)
  | Fin (q : Q).

Definition of_Z (z : Z) : number := Fin (inject_Z z).

(** [a < b] on numbers; every comparison with [NaN] is false. *)
Definition lt (a b : number) : bool :=
  match a, b with
  | NaN, _ | _, NaN => false
  | Infinity true, Infinity true => false
  | Infinity true, _ => true
  | _, Infinity true => false
  | Infinity false, _ => false
  | Fin _, Infinity false => true
  | Fin x, Fin y => negb (Qle_bool y x)
  end.

Definition isNaN (a : number) : bool :=
  match a with NaN => true | _ => false end.

Definition isFinite (a : number) : bool :=
  match a with Fin _ => true | _ => false end.

(** *** Rounding a rational to the nearest double, ties to even *)

Definition pow2 (e : Z) : Q :=
  if (0 <=? e)%Z then inject_Z (2 ^ e) else 1 / inject_Z (2 ^ (- e)).

(** [floor(log2 q)] for a positive rational. *)
Definition log2_floor (q : Q) : Z :=
  let e0 := (Z.log2 (Qnum q) - Z.log2 (Zpos (Qden q)))%Z in
  if Qle_bool (pow2 e0) q then e0 else (e0 - 1)%Z.

(** The integer nearest to a non-negative rational, ties to even. *)
Definition round_half_even (q : Q) : Z :=
  let fl := Qfloor q in
  let twice_rest := ((q - inject_Z fl) * 2)%Q in
  if Qle_bool 1 twice_rest
  then if Qle_bool twice_rest 1 then (if Z.even fl then fl else fl + 1)%Z
       else (fl + 1)%Z
  else fl.

Definition round_pos (q : Q) : option Q :=
  let e := Z.max (log2_floor q) (-1022) in
  let ulp := pow2 (e - 52) in
  let m := round_half_even (q / ulp) in
  let v := Qred (inject_Z m * ulp) in
  if Qle_bool (pow2 1024) v then None else Some v.

(** [RoundMVResult]: the double nearest to the mathematical value. *)
Definition roundToDouble (q : Q) : number :=
  match Qnum q with
  | Z0 => Fin 0
  | Zpos _ =>
      match round_pos q with Some v => Fin v | None => Infinity false end
  | Zneg _ =>
      match round_pos (- q) with
      | Some v => Fin (Qred (- v))
      | None => Infinity true
      end
  end.

(** *** [StringToNumber] *)

Definition digit_of (radix : N) (c : N) : option N :=
  let d :=
    if (48 <=? c) && (c <=? 57) then Some (c - 48)
    else if (97 <=? c) && (c <=? 102) then Some (c - 87)
    else if (65 <=? c) && (c <=? 70) then Some (c - 55)
    else None in
  match d with
  | Some v => if v <? radix then Some v else None
  | None => None
  end.

(** Reads the longest prefix of digits: its value so far, how many digits
    were read, and the rest. *)
Fixpoint read_digits (radix : N) (s : jsstring) (acc : N) (count : nat)
  : N * nat * jsstring :=
  match s with
  | [] => (acc, count, [])
  | c :: s' =>
      match digit_of radix c with
      | Some d => read_digits radix s' (acc * radix + d) (S count)
      | None => (acc, count, s)
      end
  end.

(** [NonDecimalIntegerLiteral]: [0x], [0o] or [0b] and at least one digit
    of that radix, nothing else. *)
Definition nonDecimalLiteral (s : jsstring) : option N :=
  match s with
  | 48 :: p :: ds =>
      let radix :=
        if (p =? 120) || (p =? 88) then Some 16
        else if (p =? 111) || (p =? 79) then Some 8
        else if (p =? 98) || (p =? 66) then Some 2
        else None in
      match radix with
      | Some r =>
          match read_digits r ds 0 0 with
          | (v, S _, []) => Some v
          | _ => None
          end
      | None => None
      end
  | _ => None
  end.

(** An optional sign: [true] when negative. *)
Definition read_sign (s : jsstring) : bool * jsstring :=
  match s with
  | 43 :: s' => (false, s')
  | 45 :: s' => (true, s')
  | _ => (false, s)
  end.

(** [ExponentPart]: [e] or [E], an optional sign and at least one digit. *)
Definition read_exponent (s : jsstring) : option (Z * jsstring) :=
  match s with
  | c :: s' =>
      if (c =? 101) || (c =? 69) then
        let '(neg, s'') := read_sign s' in
        match read_digits 10 s'' 0 0 with
        | (v, S _, rest) =>
            Some (if neg then (- Z.of_N v)%Z else Z.of_N v, rest)
        | _ => None
        end
      else None
  | [] => None
  end.

(** [StrUnsignedDecimalLiteral] other than [Infinity]: the mathematical
    value of [digits . digits e exponent]. *)
Definition unsignedDecimal (s : jsstring) : option Q :=
  let '(int_part, n_int, s1) := read_digits 10 s 0 0 in
  let '(mantissa, n_frac, s2) :=
    match s1 with
    | 46 :: s1' =>
        let '(m, n_all, rest) := read_digits 10 s1' int_part n_int in
        (m, (n_all - n_int)%nat, Some rest)
    | _ => (int_part, O, if (0 <? n_int)%nat then Some s1 else None)
    end in
  match s2 with
  | None => None
  | Some s2 =>
      if (0 <? n_int + n_frac)%nat then
        let value (e : Z) :=
          let e' := (e - Z.of_nat n_frac)%Z in
          if (0 <=? e')%Z then (inject_Z (Z.of_N mantissa * 10 ^ e'))%Q
          else (inject_Z (Z.of_N mantissa) / inject_Z (10 ^ (- e')))%Q in
        match s2 with
        | [] => Some (value 0%Z)
        | _ =>
            match read_exponent s2 with
            | Some (e, []) => Some (value e)
            | _ => None
            end
        end
      else None
  end.

Definition Infinity_literal : jsstring := lit "Infinity".

(** [StringToNumber]: white space around the literal is skipped, the empty
    literal is 0, anything that is not a numeric literal is [NaN]. *)
Definition StringToNumber (s : jsstring) : number :=
  let t := trim s in
  match t with
  | [] => Fin 0
  | _ =>
      match nonDecimalLiteral t with
      | Some v => roundToDouble (inject_Z (Z.of_N v))
      | None =>
          let '(neg, u) := read_sign t in
          if decide (u = Infinity_literal) then Infinity neg
          else
            match unsignedDecimal u with
            | Some q => roundToDouble (if neg then (- q)%Q else q)
            | None => NaN
            end
      end
  end.

End Num.

Import Num.

(** ** The profile record and the zod schema [childSchema] *)

Module Schema.

(** [ChildProfile] of index.tsx; [ChildFormData], the output type of the
    schema, is the same record without an [id]. *)
Record ChildProfile := mkChild {
  fullName : jsstring;
  age : number;
  height : number;
  weight : number;
  gender : option jsstring;
  medicalNotes : option jsstring;
  id : option jsstring
}.

(** [{ ...c, id: i }] *)
Definition with_id (c : ChildProfile) (i : jsstring) : ChildProfile :=
  mkChild (fullName c) (age c) (height c) (weight c) (gender c)
          (medicalNotes c) (Some i).

(** A primitive value of a raw form field. *)
Inductive value :=
  | VUndefined
  | VNull
  | VBoolean (b : bool)
  | VNumber (n : number)
  | VString (s : jsstring).

(** The raw, unvalidated form values handed to the resolver. *)
Record RawForm := mkRaw {
  raw_fullName : value;
  raw_age : value;
  raw_height : value;
  raw_weight : value;
  raw_gender : value;
  raw_medicalNotes : value
}.

(** [Number(v)], which [z.coerce.number()] applies to its input. *)
Definition Number (v : value) : number :=
  match v with
  | VUndefined => NaN
  | VNull => Fin 0
  | VBoolean true => Fin 1
  | VBoolean false => Fin 0
  | VNumber n => n
  | VString s => StringToNumber s
  end.

(** A zod issue: the field it names, and either the library's own
    type error or the message the schema attaches to a failed check. *)
Inductive issue :=
  | invalid_type (path : jsstring)
  | too_small (path : jsstring) (message : jsstring)
  | too_big (path : jsstring) (message : jsstring).

Definition issue_path (i : issue) : jsstring :=
  match i with
  | invalid_type p | too_small p _ | too_big p _ => p
  end.

(** The checks chained on a schema: [.min(bound, message)] and
    [.max(bound, message)]. *)
Inductive check :=
  | min (bound : Z) (message : string)
  | max (bound : Z) (message : string).

(** The outcome of [safeParse]. *)
Inductive SafeParse (A : Type) :=
  | success (data : A)
  | failure (issues : list issue).
Arguments success {A} data.
Arguments failure {A} issues.

Definition issues_of {A} (r : SafeParse A) : list issue :=
  match r with success _ => [] | failure l => l end.

Section Zod.

(** Whether [z.number()] lets an infinite value through: zod 3 does, zod 4
    reports a type error. The repository does not pin the version. *)
Variable accepts_infinite : bool.

Definition number_check (path : jsstring) (n : number) (c : check)
  : list issue :=
  match c with
  | min b m => if lt n (of_Z b) then [too_small path (lit m)] else []
  | max b m => if lt (of_Z b) n then [too_big path (lit m)] else []
  end.

(** [z.coerce.number()] followed by its checks: the input is coerced, a
    [NaN] is a type error, otherwise every check is run. *)
Definition coerce_number (checks : list check) (path : string) (v : value)
  : SafeParse number :=
  let n := Number v in
  if isNaN n || (negb (isFinite n) && negb accepts_infinite)
  then failure [invalid_type (lit path)]
  else
    match concat (map (number_check (lit path) n) checks) with
    | [] => success n
    | issues => failure issues
    end.

Definition string_check (path : jsstring) (s : jsstring) (c : check)
  : list issue :=
  match c with
  | min b m =>
      if (Z.of_nat (length s) <? b)%Z then [too_small path (lit m)] else []
  | max b m =>
      if (b <? Z.of_nat (length s))%Z then [too_big path (lit m)] else []
  end.

(** [z.string()] followed by its checks: anything but a string is a type
    error; the checks compare [s.length]. *)
Definition string_ (checks : list check) (path : string) (v : value)
  : SafeParse jsstring :=
  match v with
  | VString s =>
      match concat (map (string_check (lit path) s) checks) with
      | [] => success s
      | issues => failure issues
      end
  | _ => failure [invalid_type (lit path)]
  end.

(** [schema.optional()]: [undefined] is accepted as it is. *)
Definition optional {A} (schema : string -> value -> SafeParse A)
    (path : string) (v : value) : SafeParse (option A) :=
  match v with
  | VUndefined => success None
  | _ =>
      match schema path v with
      | success a => success (Some a)
      | failure l => failure l
      end
  end.

(** [childSchema.safeParse(raw)]: every field is parsed, in the order of
    the shape, and the issues of all of them are reported together. *)
Definition childSchema (raw : RawForm) : SafeParse ChildProfile :=
  let r_fullName :=
    string_ [min 2 "Name must be at least 2 characters"]
            "fullName" (raw_fullName raw) in
  let r_age :=
    coerce_number [min 0 "Age cannot be negative"; max 18 "Must be under 18"]
                  "age" (raw_age raw) in
  let r_height :=
    coerce_number [min 30 "Height (cm) seems too low";
                   max 250 "Height seems too high"]
                  "height" (raw_height raw) in
  let r_weight :=
    coerce_number [min 2 "Weight (kg) seems too low"]
                  "weight" (raw_weight raw) in
  let r_gender := optional (string_ []) "gender" (raw_gender raw) in
  let r_medicalNotes :=
    optional (string_ [max 300 "Notes are too long (max 300 chars)"])
             "medicalNotes" (raw_medicalNotes raw) in
  match r_fullName, r_age, r_height, r_weight, r_gender, r_medicalNotes with
  | success n, success a, success h, success w, success g, success m =>
      success (mkChild n a h w g m None)
  | _, _, _, _, _, _ =>
      failure (issues_of r_fullName ++ issues_of r_age ++ issues_of r_height ++
               issues_of r_weight ++ issues_of r_gender ++
               issues_of r_medicalNotes)
  end.

End Zod.

End Schema.

Import Schema.

(** ** The world the handlers run in *)

Module World.

(** What is kept under the two storage keys. A slot holds a value whose
    [JSON.stringify] text is the stored text. The text has [null] where
    the value has a number that is not finite, so the value says more
    than the text there. What the handlers do with a parsed list (look a
    record up by its id, filter by id, replace or add a record, give a
    record an id, and write the list back) gives the same text on the
    parsed list and on such a value; a numeric field of a parsed record
    is read through [parsed_number]. *)
Record AsyncStorage := mkStorage {
  children_list : option (list ChildProfile);
  child_profile : option ChildProfile
}.

(** A numeric field of a record that [JSON.parse] gave back: a number
    that is not finite was written as [null], and is [null] there. *)
Definition parsed_number (n : number) : value :=
  if isFinite n then VNumber n else VNull.

(** The photo library of the device and the files the app renders into
    its own cache directory. *)
Inductive file :=
  | pdf_file (html : jsstring)
  | png_file (card : option ChildProfile).

Record MediaLibrary := mkLibrary {
  assets : list file;
  albums : list (jsstring * list file)
}.

(** The calls into the platform that may reject. *)
Inductive op :=
  | getItem (key : string)
  | setItem (key : string)
  | removeItem (key : string)
  | printToFileAsync
  | captureRef
  | requestPermissionsAsync
  | createAssetAsync
  | getAlbumAsync
  | createAlbumAsync
  | addAssetsToAlbumAsync.

(** What a run does that the user or the platform can observe. *)
Inductive event :=
  | called (o : op)
  | Alert (title message : jsstring)
  | router_back.

Record world := mkWorld {
  storage : AsyncStorage;
  library : MediaLibrary;
  cache : list file;
  children : list ChildProfile;          (* state of the home screen *)
  captureData : option ChildProfile;     (* state of the add-child screen *)
  isExporting : bool;
  trace : list event
}.

Definition set_storage (s : AsyncStorage) (w : world) : world :=
  mkWorld s (library w) (cache w) (children w) (captureData w)
          (isExporting w) (trace w).
Definition set_library (l : MediaLibrary) (w : world) : world :=
  mkWorld (storage w) l (cache w) (children w) (captureData w)
          (isExporting w) (trace w).
Definition set_cache (c : list file) (w : world) : world :=
  mkWorld (storage w) (library w) c (children w) (captureData w)
          (isExporting w) (trace w).
Definition set_children (l : list ChildProfile) (w : world) : world :=
  mkWorld (storage w) (library w) (cache w) l (captureData w)
          (isExporting w) (trace w).
Definition set_captureData (d : option ChildProfile) (w : world) : world :=
  mkWorld (storage w) (library w) (cache w) (children w) d
          (isExporting w) (trace w).
Definition set_isExporting (b : bool) (w : world) : world :=
  mkWorld (storage w) (library w) (cache w) (children w) (captureData w)
          b (trace w).
Definition log (e : event) (w : world) : world :=
  mkWorld (storage w) (library w) (cache w) (children w) (captureData w)
          (isExporting w) (trace w ++ [e]).

(** *** Programs: state, trace and exceptions *)

Inductive outcome (A : Type) :=
  | Returned (a : A)
  | Thrown.
Arguments Returned {A} a.
Arguments Thrown {A}.

Definition M (A : Type) : Type := world -> outcome A * world.

Definition ret {A} (a : A) : M A := fun w => (Returned a, w).

Definition bind {A B} (m : M A) (k : A -> M B) : M B :=
  fun w =>
    match m w with
    | (Returned a, w') => k a w'
    | (Thrown, w') => (Thrown, w')
    end.

Definition throw {A} : M A := fun w => (Thrown, w).

(** [try { body } catch { handler }] *)
Definition try_catch {A} (body handler : M A) : M A :=
  fun w =>
    match body w with
    | (Returned a, w') => (Returned a, w')
    | (Thrown, w') => handler w'
    end.

(** [try { body } finally { final }] *)
Definition try_finally {A} (body : M A) (final : M unit) : M A :=
  fun w =>
    match body w with
    | (r, w') =>
        match final w' with
        | (Returned _, w'') => (r, w'')
        | (Thrown, w'') => (Thrown, w'')
        end
    end.

Definition modify (f : world -> world) : M unit :=
  fun w => (Returned tt, f w).

Definition get {A} (f : world -> A) : M A :=
  fun w => (Returned (f w), w).

Declare Scope prog_scope.
Delimit Scope prog_scope with prog.
Notation "x <- m ;; k" := (bind m (fun x => k))
  (at level 20, m at level 99, k at level 200, only parsing) : prog_scope.
Notation "m ;; k" := (bind m (fun _ => k))
  (at level 100, k at level 200, only parsing, right associativity)
  : prog_scope.

Section Platform.

(** Which platform calls reject in this run. *)
Variable rejects : op -> bool.

(** A platform call: it is logged, then it rejects or takes effect. *)
Definition call {A} (o : op) (effect : world -> A * world) : M A :=
  fun w =>
    let w1 := log (called o) w in
    if rejects o then (Thrown, w1)
    else let '(a, w2) := effect w1 in (Returned a, w2).

(** [JSON.parse(await AsyncStorage.getItem("children_list"))], or [None]
    when the key is absent ([getItem] gives [null]). *)
Definition getItem_children_list : M (option (list ChildProfile)) :=
  call (getItem "children_list") (fun w => (children_list (storage w), w)).

Definition getItem_child_profile : M (option ChildProfile) :=
  call (getItem "child_profile") (fun w => (child_profile (storage w), w)).

(** [AsyncStorage.setItem("children_list", JSON.stringify(l))]: the
    slot then holds a value with that text, [l] itself (see
    [AsyncStorage] for the numbers that are not finite). *)
Definition setItem_children_list (l : list ChildProfile) : M unit :=
  call (setItem "children_list")
       (fun w => (tt, set_storage
                        (mkStorage (Some l) (child_profile (storage w))) w)).

(** [AsyncStorage.removeItem("child_profile")] *)
Definition removeItem_child_profile : M unit :=
  call (removeItem "child_profile")
       (fun w => (tt, set_storage
                        (mkStorage (children_list (storage w)) None) w)).

Definition Alert_alert (title message : string) : M unit :=
  modify (log (Alert (lit title) (lit message))).

Definition setChildren (l : list ChildProfile) : M unit :=
  modify (set_children l).

Definition router_back_ : M unit := modify (log router_back).

End Platform.

(** A run in which no platform call rejects. *)
Definition no_rejection : op -> bool := fun _ => false.

End World.

Import World.

(** ** The home screen: [app/(tabs)/index.tsx] *)

Module Home.

(** The button of a confirmation dialog the user presses. *)
Inductive button := Cancel | Delete.

Section Handlers.

Variable rejects : op -> bool.

Local Open Scope prog_scope.

(** [loadChildren]: [now] is the reading of [Date.now()], taken only on
    the migration path. *)
Definition loadChildren (now : N) : M unit :=
  try_catch
    (childrenJson <- getItem_children_list rejects;;
     match childrenJson with
     | Some childrenList => setChildren childrenList
     | None =>
         oldChildJson <- getItem_child_profile rejects;;
         match oldChildJson with
         | Some oldChild =>
             let migratedChild := with_id oldChild (toString_int now) in
             setItem_children_list rejects [migratedChild];;
             removeItem_child_profile rejects;;
             setChildren [migratedChild]
         | None => setChildren []
         end
     end)
    (setChildren []).

(** [children.filter(child => child.id !== id)] *)
Definition without_id (i : jsstring) (l : list ChildProfile)
  : list ChildProfile :=
  filter (fun child => id child <> Some i) l.

(** [handleDeleteChild]: the dialog is shown, and the callback of the
    button that is pressed runs; the list that is filtered is the
    [children] state of the screen, not a fresh read of the store. *)
Definition handleDeleteChild (pressed : button) (i name : jsstring) : M unit :=
  modify (log (Alert (lit "Delete Child")
                     (lit "Are you sure you want to delete " ++ name ++
                      lit "'s profile?")));;
  match pressed with
  | Cancel => ret tt
  | Delete =>
      try_catch
        (children <- get children;;
         let updatedChildren := without_id i children in
         setItem_children_list rejects updatedChildren;;
         setChildren updatedChildren)
        (Alert_alert "Error" "Failed to delete child profile")
  end.

End Handlers.

End Home.

(** ** The add-child screen: [app/(tabs)/add_child.tsx] *)

Module AddChild.

Import Home.

Section Screen.

Variable rejects : op -> bool.

(** The [id] route parameter of the screen, [undefined] when adding. *)
Variable route_id : option jsstring.

Local Open Scope prog_scope.

(** [const isEditMode = !!id] *)
Definition isEditMode : bool := truthy route_id.

(** The value of [isEditMode && id] when it is truthy. *)
Definition edit_target : option jsstring :=
  if isEditMode then
    match route_id with Some (c :: s) => Some (c :: s) | _ => None end
  else None.

(** [handleDelete] *)
Definition handleDelete (pressed : button) : M unit :=
  match edit_target with
  | None => ret tt
  | Some i =>
      Alert_alert "Delete Child Profile"
        "Are you sure you want to delete this child profile? This action cannot be undone.";;
      match pressed with
      | Cancel => ret tt
      | Delete =>
          try_catch
            (childrenJson <- getItem_children_list rejects;;
             match childrenJson with
             | Some childrenList =>
                 let updatedChildren := without_id i childrenList in
                 setItem_children_list rejects updatedChildren;;
                 Alert_alert "Success" "Child profile deleted";;
                 router_back_
             | None => Alert_alert "Error" "No children found"
             end)
            (Alert_alert "Error" "Failed to delete child profile")
      end
  end.

(** [childrenList.findIndex((c) => c.id === id)], [None] for [-1]. *)
Definition findIndex (i : jsstring) (l : list ChildProfile) : option nat :=
  fst <$> list_find (fun c => id c = Some i) l.

(** The tail of [onSubmit], after the list was changed in memory: the
    list is written back, a legacy record is migrated when a child was
    added, and the screen is left. [now] is the second reading of
    [Date.now()]. *)
Definition save (now : N) (childrenList : list ChildProfile) : M unit :=
  setItem_children_list rejects childrenList;;
  oldChildJson <- getItem_child_profile rejects;;
  match oldChildJson with
  | Some oldChild =>
      if negb isEditMode then
        let migratedChild := with_id oldChild (toString_int (now + 1)) in
        let updatedList := childrenList ++ [migratedChild] in
        setItem_children_list rejects updatedList;;
        removeItem_child_profile rejects
      else ret tt
  | None => ret tt
  end;;
  router_back_.

(** [onSubmit]: [now1] and [now2] are the readings of the two calls of
    [Date.now()], should they be made. *)
Definition onSubmit (now1 now2 : N) (data : ChildProfile) : M unit :=
  try_catch
    (childrenJson <- getItem_children_list rejects;;
     let childrenList := default [] childrenJson in
     match edit_target with
     | Some i =>
         match findIndex i childrenList with
         | Some childIndex =>
             let childrenList := <[childIndex := with_id data i]> childrenList in
             Alert_alert "Success" "Child profile updated!";;
             save now2 childrenList
         | None => Alert_alert "Error" "Child profile not found"
         end
     | None =>
         let newChild := with_id data (toString_int now1) in
         let childrenList := childrenList ++ [newChild] in
         Alert_alert "Success" "Child profile saved!";;
         save now2 childrenList
     end)
    (Alert_alert "Error" "Failed to save data").

End Screen.

End AddChild.

(** ** The export renderer *)

Module Renderer.

(** *** The document: [components/pdf-builder.tsx] *)

(** [PdfChildData]; [null] and [undefined] are both [None]. *)
Record PdfChildData := mkPdf {
  pdf_fullName : jsstring;
  pdf_age : option number;
  pdf_height : option number;
  pdf_weight : option number;
  pdf_gender : option jsstring;
  pdf_medicalNotes : option jsstring
}.

(** A validated form record passed where [PdfChildData] is expected. *)
Definition as_pdf_data (data : ChildProfile) : PdfChildData :=
  mkPdf (fullName data) (Some (age data)) (Some (height data))
        (Some (weight data)) (gender data) (medicalNotes data).

(** The template text before fullName. *)
Definition html_0 : jsstring :=
  lit "<!DOCTYPE html>" ++ nl ++
  lit "<html>" ++ nl ++
  lit "    <head>" ++ nl ++
  lit "    <meta charset=" ++ dquote ++ lit "utf-8" ++ dquote ++ lit " />" ++
  nl ++
  lit "    <style>" ++ nl ++
  lit "        body { font-family: Arial, sans-serif; padding: 24px" ++
  lit "; color: #1a1a1a; }" ++ nl ++
  lit "        h1 { font-size: 24px; margin-bottom: 12px; }" ++ nl ++
  lit "        h2 { font-size: 16px; margin-top: 18px; margin-botto" ++
  lit "m: 6px; color: #007AFF; }" ++ nl ++
  lit "        .card { border: 1px solid #e5e5e5; border-radius: 12" ++
  lit "px; padding: 16px; box-shadow: 0 4px 10px rgba(0,0,0,0.05); " ++
  lit "}" ++ nl ++
  lit "        .row { display: flex; justify-content: space-between" ++
  lit "; margin-bottom: 8px; }" ++ nl ++
  lit "        .label { font-weight: 600; color: #555; }" ++ nl ++
  lit "        .value { color: #111; }" ++ nl ++
  lit "    </style>" ++ nl ++
  lit "    </head>" ++ nl ++
  lit "    <body>" ++ nl ++
  lit "    <h1>Child Guard ID</h1>" ++ nl ++
  lit "    <div class=" ++ dquote ++ lit "card" ++ dquote ++ lit ">" ++ nl ++
  lit "        <div class=" ++ dquote ++ lit "row" ++ dquote ++
  lit "><span class=" ++ dquote ++ lit "label" ++ dquote ++
  lit ">Full Name:</span><span class=" ++ dquote ++ lit "value" ++ dquote ++
  lit ">".

(** The template text between fullName and age. *)
Definition html_1 : jsstring :=
  lit "</span></div>" ++ nl ++
  lit "        <div class=" ++ dquote ++ lit "row" ++ dquote ++
  lit "><span class=" ++ dquote ++ lit "label" ++ dquote ++
  lit ">Age:</span><span class=" ++ dquote ++ lit "value" ++ dquote ++
  lit ">".

(** The template text between age and gender. *)
Definition html_2 : jsstring :=
  lit "</span></div>" ++ nl ++
  lit "        <div class=" ++ dquote ++ lit "row" ++ dquote ++
  lit "><span class=" ++ dquote ++ lit "label" ++ dquote ++
  lit ">Gender:</span><span class=" ++ dquote ++ lit "value" ++ dquote ++
  lit ">".

(** The template text between gender and height. *)
Definition html_3 : jsstring :=
  lit "</span></div>" ++ nl ++
  lit "        <div class=" ++ dquote ++ lit "row" ++ dquote ++
  lit "><span class=" ++ dquote ++ lit "label" ++ dquote ++
  lit ">Height (cm):</span><span class=" ++ dquote ++ lit "value" ++ dquote ++
  lit ">".

(** The template text between height and weight. *)
Definition html_4 : jsstring :=
  lit "</span></div>" ++ nl ++
  lit "        <div class=" ++ dquote ++ lit "row" ++ dquote ++
  lit "><span class=" ++ dquote ++ lit "label" ++ dquote ++
  lit ">Weight (kg):</span><span class=" ++ dquote ++ lit "value" ++ dquote ++
  lit ">".

(** The template text between weight and medicalNotes. *)
Definition html_5 : jsstring :=
  lit "</span></div>" ++ nl ++
  lit "        <h2>Medical Notes</h2>" ++ nl ++
  lit "        <p>".

(** The template text after medicalNotes. *)
Definition html_6 : jsstring :=
  lit "</p>" ++ nl ++
  lit "    </div>" ++ nl ++
  lit "    </body>" ++ nl ++
  lit "</html>".

(** The em dash U+2014 of [data.gender || "—"]. *)
Definition em_dash : jsstring := [8212].

Definition none_provided : jsstring := lit "None provided".

Section Render.

(** [Number.prototype.toString], as template literals and React text
    nodes apply it to a number; supplied by the JavaScript engine. *)
Variable numberToString : number -> jsstring.

(** A number under [??] with the empty string: nothing is shown for a
    missing number. *)
Definition number_or_empty (n : option number) : jsstring :=
  match n with Some x => numberToString x | None => [] end.

(** [s || fallback] on an optional string. *)
Definition string_or (s : option jsstring) (fallback : jsstring) : jsstring :=
  or_else (default [] s) fallback.

(** [buildPdfHtml] *)
Definition buildPdfHtml (data : PdfChildData) : jsstring :=
  html_0 ++ pdf_fullName data ++
  html_1 ++ number_or_empty (pdf_age data) ++
  html_2 ++ string_or (pdf_gender data) em_dash ++
  html_3 ++ number_or_empty (pdf_height data) ++
  html_4 ++ number_or_empty (pdf_weight data) ++
  html_5 ++ string_or (pdf_medicalNotes data) none_provided ++
  html_6.

(** *** The image: the hidden capture card *)

(** The React elements of the card, with the name of their style. *)
Unset Elimination Schemes.
Inductive element :=
  | Text (style : string) (content : jsstring)
  | View (style : string) (content : list element).
Set Elimination Schemes.

(** The card under the [ViewShot]; [gender_fallback] is the literal of
    [captureData?.gender || ...], which differs between the two
    revisions of the screen. *)
Definition capture_card (gender_fallback : jsstring)
    (captureData : option ChildProfile) : element :=
  View "hiddenCapture" [
    View "captureCard" [
      Text "captureTitle" (lit "Child Guard ID");
      Text "captureName"
        (or_else (trim (string_or (fullName <$> captureData) []))
                 (lit "Name missing"));
      View "captureRow" [
        Text "captureLabel" (lit "Age");
        Text "captureValue" (number_or_empty (age <$> captureData))];
      View "captureRow" [
        Text "captureLabel" (lit "Gender");
        Text "captureValue"
          (string_or (captureData ≫= gender) gender_fallback)];
      View "captureRow" [
        Text "captureLabel" (lit "Height (cm)");
        Text "captureValue" (number_or_empty (height <$> captureData))];
      View "captureRow" [
        Text "captureLabel" (lit "Weight (kg)");
        Text "captureValue" (number_or_empty (weight <$> captureData))];
      Text "captureSection" (lit "Medical Notes");
      Text "captureNotes"
        (string_or (captureData ≫= medicalNotes) none_provided)]].

(** The card of add_child.tsx. *)
Definition captureCard : option ChildProfile -> element :=
  capture_card em_dash.

(** The texts an element shows, in document order, with their style. *)
Fixpoint texts (e : element) : list (string * jsstring) :=
  match e with
  | Text style content => [(style, content)]
  | View _ content => flat_map texts content
  end.

(** The text shown under a given style. *)
Definition shown (style : string) (e : element) : list jsstring :=
  snd <$> filter (fun t => fst t = style) (texts e).

End Render.

(** *** Export handlers *)

Inductive PermissionStatus := granted | denied | undetermined.

(** How a screen makes the ref of the capture card. *)
Inductive ref_hook := createRef | useRef.

(** Whether [viewShotRef.current] is set when the running handler looks
    at it. The handler has set [isExporting] and [captureData] and has
    waited by then, and the component has rendered again. A ref made by
    [React.createRef()] in the body of the component is a new object in
    every render, and the commit of a render detaches the object of the
    render before, the one the running handler holds: that one is
    [null], whether the card is mounted or not. A ref kept by [useRef]
    is the same object in every render: it holds the card when the card
    is mounted. *)
Definition ref_current (hook : ref_hook) (mounted : bool) : bool :=
  match hook with
  | createRef => false
  | useRef => mounted
  end.

Section Handlers.

Variable rejects : op -> bool.

(** Whether the capture card is mounted. *)
Variable mounted : bool.

(** The answer of the user to the permission prompt. *)
Variable answer : PermissionStatus.

Local Open Scope prog_scope.

Definition setIsExporting (b : bool) : M unit := modify (set_isExporting b).
Definition setCaptureData (d : ChildProfile) : M unit :=
  modify (set_captureData (Some d)).

(** [captureRef(viewShotRef, ...)]: the card, as it is rendered from the
    [captureData] state, is written to a PNG file in the cache. *)
Definition captureRef_ : M file :=
  call rejects captureRef
    (fun w => let f := png_file (captureData w) in
              (f, set_cache (cache w ++ [f]) w)).

(** [Print.printToFileAsync({ html })]: a PDF file in the cache. *)
Definition printToFileAsync_ (html : jsstring) : M file :=
  call rejects printToFileAsync
    (fun w => let f := pdf_file html in (f, set_cache (cache w ++ [f]) w)).

Definition requestPermissionsAsync_ : M PermissionStatus :=
  call rejects requestPermissionsAsync (fun w => (answer, w)).

(** [MediaLibrary.createAssetAsync(uri)]: the file joins the library. *)
Definition createAssetAsync_ (f : file) : M file :=
  call rejects createAssetAsync
    (fun w => (f, set_library
                    (mkLibrary (assets (library w) ++ [f])
                               (albums (library w))) w)).

Definition find_album (name : jsstring) (l : list (jsstring * list file))
  : option (jsstring * list file) :=
  snd <$> list_find (fun a => fst a = name) l.

Definition getAlbumAsync_ (name : jsstring)
  : M (option (jsstring * list file)) :=
  call rejects getAlbumAsync
    (fun w => (find_album name (albums (library w)), w)).

Definition createAlbumAsync_ (name : jsstring) (asset : file) : M unit :=
  call rejects createAlbumAsync
    (fun w => (tt, set_library
                     (mkLibrary (assets (library w))
                                (albums (library w) ++ [(name, [asset])])) w)).

Definition add_to_album (name : jsstring) (asset : file)
    (a : jsstring * list file) : jsstring * list file :=
  if decide (fst a = name) then (fst a, snd a ++ [asset]) else a.

Definition addAssetsToAlbumAsync_ (asset : file)
    (album : jsstring * list file) : M unit :=
  call rejects addAssetsToAlbumAsync
    (fun w => (tt, set_library
                     (mkLibrary (assets (library w))
                                (add_to_album (fst album) asset <$>
                                   albums (library w))) w)).

(** The part of the export after the snapshot was taken: permission,
    then the asset and its album. *)
Definition save_image (shotUri : file) (data : ChildProfile) : M unit :=
  let safeName := FileName.sanitizeForFileSystem (fullName data) in
  permission <- requestPermissionsAsync_;;
  match permission with
  | granted =>
      asset <- createAssetAsync_ shotUri;;
      let albumName := lit "ChildGuardID - " ++ safeName in
      album <- getAlbumAsync_ albumName;;
      match album with
      | None => createAlbumAsync_ albumName asset
      | Some album => addAssetsToAlbumAsync_ asset album
      end;;
      modify (log (Alert (lit "Saved")
                         (lit "Image saved to Photos album: " ++ albumName)))
  | _ =>
      Alert_alert "Permission needed"
                  "Please allow photo library access to save the image."
  end.

(** [exportPdfAndImage] of add_child.tsx, run on validated [data]; the
    ref is made by [React.createRef()]. *)
Definition exportPdfAndImage (data : ChildProfile) : M unit :=
  setIsExporting true;;
  try_finally
    (try_catch
       (setCaptureData data;;
        if negb (ref_current createRef mounted) then throw
        else
          shotUri <- captureRef_;;
          save_image shotUri data)
       (Alert_alert "Error" "Could not export the PDF and image."))
    (setIsExporting false).

End Handlers.

End Renderer.

(** ** The revision of the add-child screen that prints the PDF *)

Module PdfScreen.

Import Renderer.

(** The literal of [captureData?.gender || ...] in this revision: the
    three characters U+00E2 U+20AC U+201D. *)
Definition gender_fallback : jsstring := [226; 8364; 8221].

Section Screen.

Variable numberToString : number -> jsstring.
Variable rejects : op -> bool.
Variable mounted : bool.
Variable answer : PermissionStatus.

Local Open Scope prog_scope.

(** The capture card of this revision. *)
Definition captureCard : option ChildProfile -> element :=
  capture_card numberToString gender_fallback.

(** [exportPdfAndImage] of this revision: the ref is kept by [useRef],
    and the document is printed to a file before the snapshot is
    taken. *)
Definition exportPdfAndImage (data : ChildProfile) : M unit :=
  setIsExporting true;;
  try_finally
    (try_catch
       (setCaptureData data;;
        let html := buildPdfHtml numberToString (as_pdf_data data) in
        pdf <- printToFileAsync_ rejects html;;
        if negb (ref_current useRef mounted) then throw
        else
          shotUri <- captureRef_ rejects;;
          save_image rejects answer shotUri data)
       (Alert_alert "Error" "Could not export the PDF and image."))
    (setIsExporting false).

End Screen.

End PdfScreen.

(** ** Notions used in the statements *)

Import FileName Home AddChild Renderer.

(** [s] occurs in [t] as a contiguous run of code units. *)
Definition substring (s t : jsstring) : Prop :=
  exists before after, t = before ++ s ++ after.

(** What a handler adds to the trace of the world it starts in. *)
Definition new_events (w w' : world) : list event :=
  drop (length (trace w)) (trace w').

(** The world a program ends in, and how it ends. *)
Definition final {A} (m : M A) (w : world) : world := snd (m w).
Definition result {A} (m : M A) (w : world) : outcome A := fst (m w).

(** Whether a call writes to the storage. *)
Definition storage_write (e : event) : bool :=
  match e with
  | called (setItem _) | called (removeItem _) => true
  | _ => false
  end.

(** Whether a call puts something into the photo library. *)
Definition library_write (e : event) : bool :=
  match e with
  | called createAssetAsync | called createAlbumAsync
  | called addAssetsToAlbumAsync => true
  | _ => false
  end.

(** No write to the photo library comes before the permission request. *)
Fixpoint permission_first (t : list event) : bool :=
  match t with
  | [] => true
  | called requestPermissionsAsync :: _ => true
  | e :: t' => negb (library_write e) && permission_first t'
  end.

Definition permission_alert : event :=
  Alert (lit "Permission needed")
        (lit "Please allow photo library access to save the image.").

(** The six values a document shows, read off the template. *)
Definition pdf_shows (html name age gender height weight notes : jsstring)
  : Prop :=
  html = html_0 ++ name ++ html_1 ++ age ++ html_2 ++ gender ++
         html_3 ++ height ++ html_4 ++ weight ++ html_5 ++ notes ++ html_6.

(** The same six values on a capture card, under its fixed title and
    labels. *)
Definition card_shows (card : element)
    (name age gender height weight notes : jsstring) : Prop :=
  texts card =
    [("captureTitle", lit "Child Guard ID");
     ("captureName", name);
     ("captureLabel", lit "Age"); ("captureValue", age);
     ("captureLabel", lit "Gender"); ("captureValue", gender);
     ("captureLabel", lit "Height (cm)"); ("captureValue", height);
     ("captureLabel", lit "Weight (kg)"); ("captureValue", weight);
     ("captureSection", lit "Medical Notes");
     ("captureNotes", notes)].

(** Document and card show the same field content. *)
Definition same_field_content (html : jsstring) (card : element) : Prop :=
  exists name age gender height weight notes,
    pdf_shows html name age gender height weight notes /\
    card_shows card name age gender height weight notes.

(** A world with the given store and home-screen list, nothing exported
    and nothing observed yet. *)
Definition initial (s : AsyncStorage) (children : list ChildProfile) : world :=
  mkWorld s (mkLibrary [] []) [] children None false [].

(** Rational bounds, as the schema states them. *)
Definition between (lo hi : Z) (q : Q) : Prop :=
  (inject_Z lo <= q)%Q /\ (q <= inject_Z hi)%Q.

(** An optional text field: absent, or a string, of at most [limit] code
    units when there is a limit; [out] is what the schema makes of it. *)
Definition optional_text (limit : option nat) (v : value)
    (out : option jsstring) : Prop :=
  match v with
  | VUndefined => out = None
  | VString s =>
      match limit with Some n => (length s <= n)%nat | None => True end /\
      out = Some s
  | _ => False
  end.

(** Validation fails and some issue names the field. *)
Definition rejected_for (path : string) (r : SafeParse ChildProfile) : Prop :=
  exists issues i,
    r = failure issues /\ In i issues /\ issue_path i = lit path.

(** The ranges of the validation law: a name of at least two code units
    and numeric inputs whose coercion lies within the bounds. *)
Definition in_ranges (raw : RawForm) (n : jsstring) (a h w : Q) : Prop :=
  raw_fullName raw = VString n /\ (2 <= length n)%nat /\
  Number (raw_age raw) = Fin a /\ between 0 18 a /\
  Number (raw_height raw) = Fin h /\ between 30 250 h /\
  Number (raw_weight raw) = Fin w /\ (2 <= w)%Q.

(** *** Sample inputs *)

(** A form filled in with text in every field. *)
Definition text_form (n a h w : string) (g notes : jsstring) : RawForm :=
  mkRaw (VString (lit n)) (VString (lit a)) (VString (lit h))
        (VString (lit w)) (VString g) (VString notes).

(** The profile of the scenario of the specification. *)
Definition sample_child : ChildProfile :=
  mkChild (lit "Al") (Fin 5) (Fin 110) (Fin 18) (Some []) (Some []) None.

(** Notes of 301 code units. *)
Definition long_notes : jsstring := repeat 97 301.

(** A store that holds one profile, with id 7. *)
Definition one_child_store : AsyncStorage :=
  mkStorage (Some [with_id sample_child (lit "7")]) None.

(** A store that holds only a legacy record. *)
Definition legacy_store : AsyncStorage :=
  mkStorage None (Some sample_child).

(** The element that holds a value in the document:
    [<span class="value">v</span>]. *)
Definition value_span (v : jsstring) : jsstring :=
  lit "<span class=" ++ dquote ++ lit "value" ++ dquote ++ lit ">" ++ v ++
  lit "</span>".

(** A document record with markup typed into its three text fields. *)
Definition markup_data : PdfChildData :=
  mkPdf (lit "<b>Al</b>") (Some (Fin 5)) (Some (Fin 110)) (Some (Fin 18))
        (Some (lit "<i>f</i>")) (Some (lit "<script>x</script>")).

(** A form whose name is two spaces. *)
Definition blank_name_form : RawForm :=
  text_form "  " "5" "110" "18" (lit "F") [].

(** ** More of the screens *)

(** *** Loading a profile into the form: [loadChildForEdit] *)

Module EditForm.

(** The values that [loadChildForEdit] hands to [reset], from a record
    of the parsed list. *)
Definition reset_values (child : ChildProfile) : RawForm :=
  mkRaw (VString (or_else (fullName child) []))
        (parsed_number (age child))
        (parsed_number (height child))
        (parsed_number (weight child))
        (VString (string_or (gender child) []))
        (VString (string_or (medicalNotes child) [])).

Section Screen.

Variable rejects : op -> bool.

Local Open Scope prog_scope.

(** [childrenList.find((c) => c.id === childId)] *)
Definition find (childId : jsstring) (l : list ChildProfile)
  : option ChildProfile :=
  snd <$> list_find (fun c => id c = Some childId) l.

(** [loadChildForEdit]: the result is the argument of the call of
    [reset], or [None] when the form is not reset. *)
Definition loadChildForEdit (childId : jsstring) : M (option RawForm) :=
  try_catch
    (childrenJson <- getItem_children_list rejects;;
     match childrenJson with
     | Some childrenList =>
         match find childId childrenList with
         | Some child => ret (Some (reset_values child))
         | None => ret None
         end
     | None => ret None
     end)
    (ret None).

(** The effect that runs when the screen opens:
    [if (isEditMode && id) loadChildForEdit(id)]. *)
Definition on_open (route_id : option jsstring) : M (option RawForm) :=
  match edit_target route_id with
  | Some i => loadChildForEdit i
  | None => ret None
  end.

End Screen.

End EditForm.

(** *** The home screen of the revision with a web dialog *)

Module HomeWeb.

Inductive platform := web | native.

Section Handlers.

Variable rejects : op -> bool.

(** [Platform.OS] *)
Variable os : platform.

Local Open Scope prog_scope.

(** [window.alert(message)] and [window.confirm(message)] show a message
    without a title. *)
Definition window_dialog (message : jsstring) : M unit :=
  modify (log (Alert [] message)).

(** [performDelete] *)
Definition performDelete (i : jsstring) : M unit :=
  try_catch
    (children <- get children;;
     let updatedChildren := without_id i children in
     setItem_children_list rejects updatedChildren;;
     setChildren updatedChildren;;
     match os with
     | web => window_dialog (lit "Child profile deleted successfully")
     | native => ret tt
     end)
    (match os with
     | web => window_dialog (lit "Failed to delete child profile")
     | native => Alert_alert "Error" "Failed to delete child profile"
     end).

(** [handleDeleteChild]: on the web [answer] is what [window.confirm]
    returns, [None] when there is no such function (nothing is asked
    then, and the deletion goes on); elsewhere [pressed] is the button
    of the dialog. *)
Definition handleDeleteChild (answer : option bool) (pressed : button)
    (i name : jsstring) : M unit :=
  let question :=
    lit "Are you sure you want to delete " ++ name ++ lit "'s profile?" in
  match os with
  | web =>
      confirmed <- match answer with
                   | Some b => window_dialog question;; ret b
                   | None => ret true
                   end;;
      if negb confirmed then ret tt else performDelete i
  | native =>
      modify (log (Alert (lit "Delete Child") question));;
      match pressed with
      | Cancel => ret tt
      | Delete => performDelete i
      end
  end.

End Handlers.

End HomeWeb.

(** *** Sample data *)

(** A second profile. *)
Definition other_child : ChildProfile :=
  mkChild (lit "Bea") (Fin 7) (Fin 125) (Fin 24) (Some (lit "F")) None None.

(** A world in which nobody has exported yet. *)
Definition fresh_world : world := initial (mkStorage None None) [].

(** A run in which only the removal of the legacy key rejects. *)
Definition removal_rejects : op -> bool :=
  fun o => match o with removeItem _ => true | _ => false end.

(** A run in which only writing rejects. *)
Definition writes_reject : op -> bool :=
  fun o => match o with setItem _ => true | _ => false end.

(** A run in which every call of the storage rejects. *)
Definition storage_rejects : op -> bool :=
  fun o =>
    match o with
    | getItem _ | setItem _ | removeItem _ => true
    | _ => false
    end.

(** A profile as it comes back from the edit form when nothing is typed:
    a missing gender or missing notes have become empty text. *)
Definition with_text_defaults (c : ChildProfile) : ChildProfile :=
  mkChild (fullName c) (age c) (height c) (weight c)
          (Some (string_or (gender c) []))
          (Some (string_or (medicalNotes c) [])) None.

(** A profile that [JSON.parse] gives back as [JSON.stringify] was given
    it: its numbers are finite (an infinite number or [NaN] is written
    as [null]). The store holds such a profile as it is. *)
Definition json_faithful (c : ChildProfile) : bool :=
  isFinite (age c) && isFinite (height c) && isFinite (weight c).

(** The album of the photo library that the export of a profile uses. *)
Definition album_of (data : ChildProfile) : jsstring :=
  lit "ChildGuardID - " ++ sanitizeForFileSystem (fullName data).

(** What an export tells the user when it has saved, and when it has
    failed. *)
Definition saved_alert (data : ChildProfile) : event :=
  Alert (lit "Saved") (lit "Image saved to Photos album: " ++ album_of data).

Definition export_error_alert : event :=
  Alert (lit "Error") (lit "Could not export the PDF and image.").

(** The files of an album, none when there is no such album. *)
Definition album_files (name : jsstring) (lib : MediaLibrary) : list file :=
  from_option snd [] (find_album name (albums lib)).

(** A run in which only the creation of an album rejects. *)
Definition album_creation_rejects : op -> bool :=
  fun o => match o with createAlbumAsync => true | _ => false end.

(** Two profiles whose names differ by a space. *)
Definition ann_lee : ChildProfile :=
  mkChild (lit "Ann Lee") (Fin 5) (Fin 110) (Fin 18) None None None.
Definition ann_lee' : ChildProfile :=
  mkChild (lit "Ann_Lee") (Fin 9) (Fin 130) (Fin 30) None None None.

(** * Properties *)

(** ** JavaScript values *)

Lemma uint_units_inj (d1 d2 : Decimal.uint) :
  uint_units d1 = uint_units d2 -> d1 = d2.
Proof.
  revert d2.
  induction d1 as [|d1 IH|d1 IH|d1 IH|d1 IH|d1 IH|d1 IH|d1 IH|d1 IH|d1 IH
                   |d1 IH];
    intros [|d2|d2|d2|d2|d2|d2|d2|d2|d2|d2]; cbn; intros E;
    try discriminate; try reflexivity;
    injection E as E; f_equal; by apply IH.
Qed.

(** Different integers print differently. *)
Lemma toString_int_inj (m n : N) : toString_int m = toString_int n -> m = n.
Proof.
  intros E. apply uint_units_inj in E. by apply DecimalN.Unsigned.to_uint_inj.
Qed.

Lemma trimStart_spec (s : jsstring) :
  exists l,
    s = l ++ trimStart s /\
    Forall (fun c => isWhiteSpace c = true) l /\
    (forall c, head (trimStart s) = Some c -> isWhiteSpace c = false).
Proof.
  induction s as [|c s (l & E & Hl & Hh)]; cbn.
  - exists []. by split_and!.
  - destruct (isWhiteSpace c) eqn:Hc.
    + exists (c :: l). split_and!; [by rewrite E at 1|by constructor|done].
    + exists []. split_and!; [done|constructor|]. by intros c' [= <-].
Qed.

Lemma last_rev (s : jsstring) : last (rev s) = head s.
Proof. destruct s as [|c s]; [done|]. cbn [rev]. apply last_snoc. Qed.

(** [trim] removes the white space at both ends, and nothing else. *)
Lemma trim_spec (s : jsstring) :
  exists l r,
    s = l ++ trim s ++ r /\
    Forall (fun c => isWhiteSpace c = true) l /\
    Forall (fun c => isWhiteSpace c = true) r /\
    (forall c, head (trim s) = Some c -> isWhiteSpace c = false) /\
    (forall c, last (trim s) = Some c -> isWhiteSpace c = false).
Proof.
  destruct (trimStart_spec s) as (l & El & Hl & Hhead).
  destruct (trimStart_spec (rev (trimStart s))) as (r & Er & Hr & Hlast).
  exists l, (rev r). unfold trim, trimEnd.
  assert (E : trimStart s = rev (trimStart (rev (trimStart s))) ++ rev r).
  { rewrite <- rev_app_distr, <- Er. by rewrite rev_involutive. }
  split_and!.
  - by rewrite <- E.
  - done.
  - by apply Forall_rev.
  - intros c Hc. apply Hhead. rewrite E.
    by destruct (rev (trimStart (rev (trimStart s)))).
  - intros c Hc. apply Hlast. by rewrite last_rev in Hc.
Qed.

(** [Number] on some texts: integers, a decimal fraction that is not a
    double, an exponent, white space, a hexadecimal literal, a literal
    that rounds up to its bound, and texts that are no numeric literal. *)
Example StringToNumber_values :
  StringToNumber (lit "7") = Fin 7 /\
  StringToNumber (lit "-1") = Fin (-1) /\
  StringToNumber (lit "0.1")
  = Fin (3602879701896397 # 36028797018963968) /\
  StringToNumber (lit "1e3") = Fin 1000 /\
  StringToNumber (lit "  12.5 ") = Fin (25 # 2) /\
  StringToNumber (lit "0x1F") = Fin 31 /\
  StringToNumber (lit "29.99999999999999999999") = Fin 30 /\
  StringToNumber (lit "9007199254740993") = Fin 9007199254740992 /\
  StringToNumber (lit "1e400") = Infinity false /\
  StringToNumber (lit "-Infinity") = Infinity true /\
  StringToNumber [] = Fin 0 /\
  StringToNumber (lit "abc") = NaN /\
  StringToNumber (lit "1e") = NaN /\
  StringToNumber (lit "1 2") = NaN.
Proof. by vm_compute. Qed.

(** ** Export names *)

Lemma in_class_underscore : in_class underscore = true.
Proof. reflexivity. Qed.

(** The scanner, in either state, against the description by runs. *)
Lemma replace_scan_runs (s : jsstring) :
  RunsReplaced s (replace_scan false s) /\
  (forall r, r <> [] -> Forall (fun c => in_class c = false) r ->
             RunsReplaced (r ++ s) (underscore :: replace_scan true s)).
Proof.
  induction s as [|c s [IHfree IHrun]]; simpl.
  - split; [constructor|].
    intros r Hr Hoff. apply runs_run; try done. constructor.
  - destruct (in_class c) eqn:Hc.
    + assert (Hkeep : RunsReplaced (c :: s) (c :: replace_scan false s))
        by (apply runs_keep; done).
      split; [done|].
      intros r Hr Hoff. apply runs_run; try done.
      intros c' [= <-]. done.
    + split.
      * apply (IHrun [c]); [done|]. by constructor.
      * intros r Hr Hoff.
        replace (r ++ c :: s) with ((r ++ [c]) ++ s)
          by (rewrite <- app_assoc; done).
        apply IHrun.
        -- intros Heq. by apply app_eq_nil in Heq as [_ ?].
        -- apply Forall_app. split; [done|]. by constructor.
Qed.

Lemma replace_scan_in_class (b : bool) (s : jsstring) :
  Forall (fun c => in_class c = true) (replace_scan b s).
Proof.
  revert b. induction s as [|c s IH]; intros b; simpl; [constructor|].
  destruct (in_class c) eqn:Hc; [by constructor|].
  destruct b; [done|]. constructor; [apply in_class_underscore|done].
Qed.

Lemma replace_offending_nil (s : jsstring) :
  s = [] <-> replace_offending s = [].
Proof.
  unfold replace_offending. destruct s as [|c s]; simpl; [done|].
  destruct (in_class c); split; discriminate.
Qed.

(** C3 (as amended): the export name is computed from the name with the
    surrounding white space trimmed; every maximal run of code units
    outside [A-Za-z0-9-_] becomes a single underscore; the result is cut
    to 40 code units; the default name [child] is used when the trimmed
    name is empty, which is when nothing is left to cut. The name has at
    most 40 code units, all of them in the class. *)
Theorem sanitizeForFileSystem_replaces_runs (value : jsstring) :
  RunsReplaced (trim value) (replace_offending (trim value)) /\
  sanitizeForFileSystem value =
    match replace_offending (trim value) with
    | [] => fallback
    | clean => take 40 clean
    end /\
  (trim value = [] <-> replace_offending (trim value) = []) /\
  (length (sanitizeForFileSystem value) <= 40)%nat /\
  Forall (fun c => in_class c = true) (sanitizeForFileSystem value).
Proof.
  assert (Hdef : sanitizeForFileSystem value =
    match replace_offending (trim value) with
    | [] => fallback
    | clean => take 40 clean
    end).
  { unfold sanitizeForFileSystem, slice0.
    by destruct (replace_offending (trim value)). }
  split; [apply replace_scan_runs|].
  split; [done|].
  split; [apply replace_offending_nil|].
  rewrite Hdef.
  destruct (replace_offending (trim value)) as [|c clean] eqn:Hclean.
  - split; [vm_compute; lia|]. by vm_compute; repeat constructor.
  - split; [rewrite length_take; lia|].
    apply Forall_take. rewrite <- Hclean. apply replace_scan_in_class.
Qed.

(** C3 (as stated) fails: two adjacent spaces give one underscore, not
    two. *)
Lemma sanitizeForFileSystem_not_per_character :
  sanitizeForFileSystem (lit "Ann  Lee") = lit "Ann_Lee" /\
  spec_name (lit "Ann  Lee") = lit "Ann__Lee" /\
  sanitizeForFileSystem (lit "Ann  Lee") <> spec_name (lit "Ann  Lee").
Proof. by vm_compute. Qed.

(** ** Validation *)

Section SchemaFacts.

Variable accepts_infinite : bool.

Local Abbreviation schema := (childSchema accepts_infinite).

Lemma lt_Fin_true (x y : Q) : (x < y)%Q -> lt (Fin x) (Fin y) = true.
Proof.
  intros H. simpl. destruct (Qle_bool y x) eqn:E; [|done].
  apply Qle_bool_iff in E. lra.
Qed.

Lemma lt_Fin_false (x y : Q) : (y <= x)%Q -> lt (Fin x) (Fin y) = false.
Proof.
  intros H. simpl. apply Qle_bool_iff in H. by rewrite H.
Qed.

(** A coerced number within both bounds passes. *)
Lemma coerce_number_between (lo hi : Z) (ml mh path : string) (v : value)
    (q : Q) :
  Number v = Fin q -> between lo hi q ->
  coerce_number accepts_infinite [min lo ml; max hi mh] path v
  = success (Fin q).
Proof.
  intros Hv [Hlo Hhi]. unfold coerce_number. rewrite Hv. cbn -[lt].
  unfold of_Z. rewrite !lt_Fin_false by done. done.
Qed.

Lemma coerce_number_at_least (lo : Z) (ml path : string) (v : value) (q : Q) :
  Number v = Fin q -> (inject_Z lo <= q)%Q ->
  coerce_number accepts_infinite [min lo ml] path v = success (Fin q).
Proof.
  intros Hv Hlo. unfold coerce_number. rewrite Hv. cbn -[lt].
  unfold of_Z. rewrite !lt_Fin_false by done. done.
Qed.

(** Below the lower bound the first check reports its message. *)
Lemma coerce_number_too_small (lo : Z) (ml path : string) (rest : list check)
    (v : value) (q : Q) :
  Number v = Fin q -> (q < inject_Z lo)%Q ->
  exists more,
    coerce_number accepts_infinite (min lo ml :: rest) path v
    = failure (too_small (lit path) (lit ml) :: more).
Proof.
  intros Hv Hlo. unfold coerce_number. rewrite Hv. cbn -[lt].
  unfold of_Z. rewrite lt_Fin_true by done. cbn -[lt]. eauto.
Qed.

(** Above the upper bound the second check reports its message. *)
Lemma coerce_number_too_big (lo hi : Z) (ml mh path : string) (v : value)
    (q : Q) :
  Number v = Fin q -> (inject_Z hi < q)%Q ->
  exists before,
    coerce_number accepts_infinite [min lo ml; max hi mh] path v
    = failure (before ++ [too_big (lit path) (lit mh)]).
Proof.
  intros Hv Hhi. unfold coerce_number. rewrite Hv. cbn -[lt].
  unfold of_Z. rewrite (lt_Fin_true _ q) by done.
  destruct (lt (Fin q) (Fin (inject_Z lo))); cbn.
  - by exists [too_small (lit path) (lit ml)].
  - by exists [].
Qed.

(** A [NaN] is a type error, whatever the checks. *)
Lemma coerce_number_NaN (checks : list check) (path : string) (v : value) :
  Number v = NaN ->
  coerce_number accepts_infinite checks path v
  = failure [invalid_type (lit path)].
Proof. intros Hv. unfold coerce_number. by rewrite Hv. Qed.

(** The issues of the form are those of its six fields, in order. *)
Lemma childSchema_issues (raw : RawForm) :
  issues_of (schema raw) =
    issues_of (string_ [min 2 "Name must be at least 2 characters"]
                       "fullName" (raw_fullName raw)) ++
    issues_of (coerce_number accepts_infinite
                 [min 0 "Age cannot be negative"; max 18 "Must be under 18"]
                 "age" (raw_age raw)) ++
    issues_of (coerce_number accepts_infinite
                 [min 30 "Height (cm) seems too low";
                  max 250 "Height seems too high"]
                 "height" (raw_height raw)) ++
    issues_of (coerce_number accepts_infinite
                 [min 2 "Weight (kg) seems too low"]
                 "weight" (raw_weight raw)) ++
    issues_of (optional (string_ []) "gender" (raw_gender raw)) ++
    issues_of (optional
                 (string_ [max 300 "Notes are too long (max 300 chars)"])
                 "medicalNotes" (raw_medicalNotes raw)).
Proof.
  unfold childSchema.
  destruct (string_ _ "fullName" _), (coerce_number _ _ "age" _),
    (coerce_number _ _ "height" _), (coerce_number _ _ "weight" _),
    (optional _ "gender" _), (optional _ "medicalNotes" _); reflexivity.
Qed.

(** Validation fails as soon as one field has an issue. *)
Lemma childSchema_failure (raw : RawForm) (i : issue) :
  In i (issues_of (schema raw)) ->
  exists issues, schema raw = failure issues /\ In i issues.
Proof.
  destruct (schema raw) as [d|issues] eqn:E; simpl; [done|].
  intros Hi. by exists issues.
Qed.

Lemma rejected_for_intro (raw : RawForm) (path : string) (i : issue) :
  In i (issues_of (schema raw)) -> issue_path i = lit path ->
  rejected_for path (schema raw).
Proof.
  intros Hi Hp. destruct (childSchema_failure raw i Hi) as (issues & E & Hin).
  by exists issues, i.
Qed.

End SchemaFacts.

Section RangeLaws.

Variable accepts_infinite : bool.

Local Abbreviation schema := (childSchema accepts_infinite).

Lemma string_min_ok (b : Z) (m path : string) (s : jsstring) :
  (b <= Z.of_nat (length s))%Z ->
  string_ [min b m] path (VString s) = success s.
Proof.
  intros H. unfold string_. cbn.
  destruct (Z.ltb_spec (Z.of_nat (length s)) b); [lia|done].
Qed.

Lemma string_min_short (b : Z) (m path : string) (s : jsstring) :
  (Z.of_nat (length s) < b)%Z ->
  string_ [min b m] path (VString s)
  = failure [too_small (lit path) (lit m)].
Proof.
  intros H. unfold string_. cbn.
  destruct (Z.ltb_spec (Z.of_nat (length s)) b); [done|lia].
Qed.

Lemma optional_string_ok (limit : option nat) (m path : string) (v : value)
    (out : option jsstring) :
  optional_text limit v out ->
  optional (string_ match limit with
                    | Some n => [max (Z.of_nat n) m]
                    | None => []
                    end) path v = success out.
Proof.
  destruct v as [| | | |s]; simpl; try done.
  - by intros ->.
  - intros [Hlen ->]. destruct limit as [n|]; cbn; [|done].
    destruct (Z.ltb_spec (Z.of_nat n) (Z.of_nat (length s))); [lia|done].
Qed.

Lemma optional_string_long (b : Z) (m path : string) (s : jsstring) :
  (b < Z.of_nat (length s))%Z ->
  optional (string_ [max b m]) path (VString s)
  = failure [too_big (lit path) (lit m)].
Proof.
  intros H. cbn.
  destruct (Z.ltb_spec b (Z.of_nat (length s))); [done|lia].
Qed.

(** Inputs within the ranges validate, to the coerced numbers. *)
Lemma childSchema_accepts (raw : RawForm) (n : jsstring) (a h w : Q)
    (g m : option jsstring) :
  in_ranges raw n a h w ->
  optional_text None (raw_gender raw) g ->
  optional_text (Some 300%nat) (raw_medicalNotes raw) m ->
  schema raw = success (mkChild n (Fin a) (Fin h) (Fin w) g m None).
Proof.
  intros (Hn & Hlen & Ha & Hra & Hh & Hrh & Hw & Hrw) Hg Hm.
  unfold childSchema. rewrite Hn.
  rewrite string_min_ok by lia.
  rewrite (coerce_number_between _ _ _ _ _ _ _ a Ha Hra).
  rewrite (coerce_number_between _ _ _ _ _ _ _ h Hh Hrh).
  rewrite (coerce_number_at_least _ _ _ _ _ w Hw Hrw).
  rewrite (optional_string_ok None EmptyString _ _ g Hg).
  by rewrite (optional_string_ok (Some 300%nat) _ _ _ m Hm).
Qed.

(** An issue found among those of the fields makes validation fail. *)
Ltac issue_found E :=
  rewrite childSchema_issues; rewrite ?E; cbn [issues_of];
  rewrite !in_app_iff; cbn [In]; intuition.

Lemma childSchema_rejects_age (raw : RawForm) (a : Q) :
  Number (raw_age raw) = Fin a -> (a < 0 \/ 18 < a)%Q ->
  rejected_for "age" (schema raw).
Proof.
  intros Ha [Hlo|Hhi].
  - destruct (coerce_number_too_small accepts_infinite 0
                "Age cannot be negative" "age" [max 18 "Must be under 18"]
                _ a Ha Hlo) as [more E].
    apply (rejected_for_intro _ _ _
             (too_small (lit "age") (lit "Age cannot be negative")));
      [issue_found E|done].
  - destruct (coerce_number_too_big accepts_infinite 0 18
                "Age cannot be negative" "Must be under 18" "age"
                _ a Ha Hhi) as [before E].
    apply (rejected_for_intro _ _ _
             (too_big (lit "age") (lit "Must be under 18")));
      [issue_found E|done].
Qed.

Lemma childSchema_rejects_height (raw : RawForm) (h : Q) :
  Number (raw_height raw) = Fin h -> (h < 30 \/ 250 < h)%Q ->
  rejected_for "height" (schema raw).
Proof.
  intros Hh [Hlo|Hhi].
  - destruct (coerce_number_too_small accepts_infinite 30
                "Height (cm) seems too low" "height"
                [max 250 "Height seems too high"]
                _ h Hh Hlo) as [more E].
    apply (rejected_for_intro _ _ _
             (too_small (lit "height") (lit "Height (cm) seems too low")));
      [issue_found E|done].
  - destruct (coerce_number_too_big accepts_infinite 30 250
                "Height (cm) seems too low" "Height seems too high" "height"
                _ h Hh Hhi) as [before E].
    apply (rejected_for_intro _ _ _
             (too_big (lit "height") (lit "Height seems too high")));
      [issue_found E|done].
Qed.

Lemma childSchema_rejects_weight (raw : RawForm) (w : Q) :
  Number (raw_weight raw) = Fin w -> (w < 2)%Q ->
  rejected_for "weight" (schema raw).
Proof.
  intros Hw Hlo.
  destruct (coerce_number_too_small accepts_infinite 2
              "Weight (kg) seems too low" "weight" [] _ w Hw Hlo)
    as [more E].
  apply (rejected_for_intro _ _ _
           (too_small (lit "weight") (lit "Weight (kg) seems too low")));
    [issue_found E|done].
Qed.

Lemma childSchema_rejects_fullName (raw : RawForm) (n : jsstring) :
  raw_fullName raw = VString n -> (length n < 2)%nat ->
  rejected_for "fullName" (schema raw).
Proof.
  intros Hn Hlen.
  pose proof (string_min_short 2 "Name must be at least 2 characters"
                "fullName" n ltac:(lia)) as E.
  rewrite <- Hn in E.
  apply (rejected_for_intro _ _ _
           (too_small (lit "fullName")
                      (lit "Name must be at least 2 characters")));
    [issue_found E|done].
Qed.

Lemma childSchema_rejects_medicalNotes (raw : RawForm) (m : jsstring) :
  raw_medicalNotes raw = VString m -> (300 < length m)%nat ->
  rejected_for "medicalNotes" (schema raw).
Proof.
  intros Hm Hlen.
  pose proof (optional_string_long 300 "Notes are too long (max 300 chars)"
                "medicalNotes" m ltac:(lia)) as E.
  rewrite <- Hm in E.
  apply (rejected_for_intro _ _ _
           (too_big (lit "medicalNotes")
                    (lit "Notes are too long (max 300 chars)")));
    [issue_found E|done].
Qed.

End RangeLaws.

(** C6 (as amended): for every raw input whose name is a string of at
    least 2 code units, whose age, height and weight coerce to numbers in
    [0,18], [30,250] and [2,oo), whose gender is absent or a string and
    whose medical notes are absent or a string of at most 300 code
    units, validation succeeds, with the coerced numbers. For every
    input whose age, height or weight coerces to a number outside its
    bound, whose name has fewer than 2 code units or whose notes exceed
    300, validation fails with an issue naming that field. *)
Theorem childSchema_range_laws (accepts_infinite : bool) (raw : RawForm) :
  (forall n a h w g m,
     in_ranges raw n a h w ->
     optional_text None (raw_gender raw) g ->
     optional_text (Some 300%nat) (raw_medicalNotes raw) m ->
     childSchema accepts_infinite raw
     = success (mkChild n (Fin a) (Fin h) (Fin w) g m None)) /\
  (forall a, Number (raw_age raw) = Fin a -> (a < 0 \/ 18 < a)%Q ->
     rejected_for "age" (childSchema accepts_infinite raw)) /\
  (forall h, Number (raw_height raw) = Fin h -> (h < 30 \/ 250 < h)%Q ->
     rejected_for "height" (childSchema accepts_infinite raw)) /\
  (forall w, Number (raw_weight raw) = Fin w -> (w < 2)%Q ->
     rejected_for "weight" (childSchema accepts_infinite raw)) /\
  (forall n, raw_fullName raw = VString n -> (length n < 2)%nat ->
     rejected_for "fullName" (childSchema accepts_infinite raw)) /\
  (forall m, raw_medicalNotes raw = VString m -> (300 < length m)%nat ->
     rejected_for "medicalNotes" (childSchema accepts_infinite raw)).
Proof.
  repeat split.
  - apply childSchema_accepts.
  - apply childSchema_rejects_age.
  - apply childSchema_rejects_height.
  - apply childSchema_rejects_weight.
  - apply childSchema_rejects_fullName.
  - apply childSchema_rejects_medicalNotes.
Qed.

(** C6 (as stated) fails: a form within all the stated ranges whose
    notes have 301 code units is rejected. *)
Lemma long_notes_fail_validation :
  exists raw n a h w,
    in_ranges raw n a h w /\
    forall accepts_infinite,
      rejected_for "medicalNotes" (childSchema accepts_infinite raw).
Proof.
  exists (text_form "Al" "5" "110" "18" [] long_notes),
         (lit "Al"), 5%Q, 110%Q, 18%Q.
  split.
  - unfold in_ranges, between, Qle. cbn [text_form raw_fullName raw_age
      raw_height raw_weight]. repeat split; try (vm_compute; done).
    all: simpl; lia.
  - intros b. apply (childSchema_rejects_medicalNotes b _ long_notes).
    + done.
    + vm_compute. lia.
Qed.

(** The range laws at the scenario of the specification, with numeric
    text, and one unit outside each bound. *)
Lemma childSchema_range_laws_witness :
  childSchema true (text_form "Al" "7" "110" "18" [] [])
  = success (mkChild (lit "Al") (Fin 7) (Fin 110) (Fin 18)
                     (Some []) (Some []) None) /\
  rejected_for "age" (childSchema true (text_form "Al" "-1" "110" "18" [] [])) /\
  rejected_for "age" (childSchema true (text_form "Al" "19" "110" "18" [] [])) /\
  rejected_for "height"
    (childSchema true (text_form "Al" "7" "29" "18" [] [])) /\
  rejected_for "height"
    (childSchema true (text_form "Al" "7" "251" "18" [] [])) /\
  rejected_for "weight"
    (childSchema true (text_form "Al" "7" "110" "1" [] [])) /\
  rejected_for "fullName"
    (childSchema true (text_form "A" "7" "110" "18" [] [])) /\
  rejected_for "medicalNotes"
    (childSchema true (text_form "Al" "7" "110" "18" [] long_notes)).
Proof.
  split_and!.
  - apply (proj1 (childSchema_range_laws true _)).
    + unfold in_ranges, between, Qle. cbn [text_form raw_fullName raw_age
        raw_height raw_weight]. repeat split; try (vm_compute; done).
      all: simpl; lia.
    + simpl. split; [done|reflexivity].
    + simpl. split; [lia|reflexivity].
  - apply (proj1 (proj2 (childSchema_range_laws true _)) (-1)%Q);
      [reflexivity|left; reflexivity].
  - apply (proj1 (proj2 (childSchema_range_laws true _)) 19%Q);
      [reflexivity|right; reflexivity].
  - apply (proj1 (proj2 (proj2 (childSchema_range_laws true _))) 29%Q);
      [reflexivity|left; reflexivity].
  - apply (proj1 (proj2 (proj2 (childSchema_range_laws true _))) 251%Q);
      [reflexivity|right; reflexivity].
  - apply (proj1 (proj2 (proj2 (proj2 (childSchema_range_laws true _)))) 1%Q);
      [reflexivity|reflexivity].
  - apply (proj1 (proj2 (proj2 (proj2 (proj2
             (childSchema_range_laws true _))))) (lit "A"));
      [reflexivity|simpl; lia].
  - apply (proj2 (proj2 (proj2 (proj2 (proj2
             (childSchema_range_laws true _))))) long_notes);
      [reflexivity|vm_compute; lia].
Defined.

(** ** The store *)

Lemma new_events_app (w w' : world) (l : list event) :
  trace w' = trace w ++ l -> new_events w w' = l.
Proof. intros E. unfold new_events. rewrite E. apply drop_app_length. Qed.

Lemma new_events_mkWorld (w : world) s lib c ch cap ex (l : list event) :
  new_events w (mkWorld s lib c ch cap ex (trace w ++ l)) = l.
Proof. by apply new_events_app. Qed.

(** Runs a handler symbolically: the monad, the platform calls and the
    record updates are unfolded, the data is left alone. *)
Ltac run_handler :=
  cbv beta iota zeta delta
    [loadChildren handleDeleteChild
     handleDelete onSubmit save edit_target isEditMode truthy
     Renderer.exportPdfAndImage PdfScreen.exportPdfAndImage save_image
     setIsExporting setCaptureData captureRef_ printToFileAsync_
     requestPermissionsAsync_ createAssetAsync_ getAlbumAsync_
     createAlbumAsync_ addAssetsToAlbumAsync_
     try_catch try_finally bind ret throw call modify get
     getItem_children_list getItem_child_profile setItem_children_list
     removeItem_child_profile Alert_alert setChildren router_back_
     log set_storage set_library set_cache set_children set_captureData
     set_isExporting no_rejection final result ref_current
     storage library cache children captureData isExporting trace
     children_list child_profile assets albums fst snd negb].

(** What the migration of [loadChildren] does to a store that holds only
    a legacy record. *)
Lemma loadChildren_migrates (legacy : ChildProfile) (now : N) (w : world) :
  children_list (storage w) = None ->
  child_profile (storage w) = Some legacy ->
  loadChildren no_rejection now w =
    (Returned tt,
     mkWorld (mkStorage (Some [with_id legacy (toString_int now)]) None)
             (library w) (cache w) [with_id legacy (toString_int now)]
             (captureData w) (isExporting w)
             (trace w ++ [called (getItem "children_list");
                          called (getItem "child_profile");
                          called (setItem "children_list");
                          called (removeItem "child_profile")])).
Proof.
  destruct w as [[l old] lib c ch cap ex tr]. simpl. intros -> ->.
  run_handler. by rewrite <- !app_assoc.
Qed.

(** What [loadChildren] does once the list is stored. *)
Lemma loadChildren_reads_list (l : list ChildProfile) (now : N) (w : world) :
  children_list (storage w) = Some l ->
  loadChildren no_rejection now w =
    (Returned tt,
     mkWorld (storage w) (library w) (cache w) l (captureData w)
             (isExporting w)
             (trace w ++ [called (getItem "children_list")])).
Proof.
  destruct w as [[l' old] lib c ch cap ex tr]. simpl. intros ->.
  by run_handler.
Qed.

(** C7: starting from a store that holds only a legacy record, the
    first [loadChildren] assigns the record an id, persists it as a
    one-element list and removes the legacy key; a second [loadChildren]
    reads that list back and writes nothing: both calls yield the same
    one-element list. Its one record is the legacy record, field by
    field, under the reading of the clock of the first call as its
    id. *)
Theorem loadChildren_migration_idempotent
    (legacy : ChildProfile) (t1 t2 : N) (w : world) :
  children_list (storage w) = None ->
  child_profile (storage w) = Some legacy ->
  let w1 := final (loadChildren no_rejection t1) w in
  let w2 := final (loadChildren no_rejection t2) w1 in
  let migrated :=
    mkChild (fullName legacy) (age legacy) (height legacy) (weight legacy)
            (gender legacy) (medicalNotes legacy)
            (Some (toString_int t1)) in
  children w1 = [migrated] /\
  children w2 = [migrated] /\
  id migrated = Some (toString_int t1) /\
  storage w1 = mkStorage (Some [migrated]) None /\
  storage w2 = storage w1 /\
  new_events w1 w2 = [called (getItem "children_list")] /\
  result (loadChildren no_rejection t1) w = Returned tt /\
  result (loadChildren no_rejection t2) w1 = Returned tt.
Proof.
  intros Hlist Hlegacy. unfold final, result.
  rewrite (loadChildren_migrates legacy t1 w Hlist Hlegacy).
  cbn [snd fst].
  rewrite (loadChildren_reads_list [with_id legacy (toString_int t1)]);
    [|done].
  cbn [snd fst children storage trace]. split_and!; try done.
  apply new_events_mkWorld.
Qed.

(** C7 at a store that holds the sample profile as a legacy record. *)
Lemma loadChildren_migration_idempotent_witness :
  children (final (loadChildren no_rejection 1700000000000)
                  (initial legacy_store []))
  = [mkChild (lit "Al") (Fin 5) (Fin 110) (Fin 18) (Some []) (Some [])
             (Some (lit "1700000000000"))] /\
  children (final (loadChildren no_rejection 1700000000555)
                  (final (loadChildren no_rejection 1700000000000)
                         (initial legacy_store [])))
  = [mkChild (lit "Al") (Fin 5) (Fin 110) (Fin 18) (Some []) (Some [])
             (Some (lit "1700000000000"))] /\
  child_profile (storage (final (loadChildren no_rejection 1700000000000)
                                (initial legacy_store []))) = None.
Proof.
  pose proof (loadChildren_migration_idempotent sample_child
                1700000000000 1700000000555 (initial legacy_store [])
                eq_refl eq_refl) as H.
  cbv zeta in H. destruct H as (H1 & H2 & _ & H3 & _).
  split_and!.
  - exact H1.
  - exact H2.
  - rewrite H3. reflexivity.
Defined.

Lemma edit_target_truthy (i : jsstring) :
  i <> [] -> edit_target (Some i) = Some i /\ isEditMode (Some i) = true.
Proof. intros Hi. by destruct i. Qed.


Lemma findIndex_Some (i : jsstring) (l : list ChildProfile) (k : nat)
    (c : ChildProfile) :
  l !! k = Some c -> id c = Some i ->
  (forall j c', (j < k)%nat -> l !! j = Some c' -> id c' <> Some i) ->
  findIndex i l = Some k.
Proof.
  intros Hk Hc Hfirst. unfold findIndex.
  assert (E : list_find (fun c => id c = Some i) l = Some (k, c)).
  { apply list_find_Some. split_and!; [done..|].
    intros j c' Hj Hlt. by apply (Hfirst j c'). }
  by rewrite E.
Qed.


(** [onSubmit] in edit mode when record [k] is the first with the id. *)
Lemma onSubmit_update_found (i : jsstring) (t1 t2 : N)
    (data : ChildProfile) (w : world) (k : nat) :
  i <> [] ->
  findIndex i (default [] (children_list (storage w))) = Some k ->
  onSubmit no_rejection (Some i) t1 t2 data w =
    (Returned tt,
     mkWorld (mkStorage
                (Some (<[k := with_id data i]>
                         (default [] (children_list (storage w)))))
                (child_profile (storage w)))
             (library w) (cache w) (children w) (captureData w)
             (isExporting w)
             (trace w ++ [called (getItem "children_list");
                          Alert (lit "Success")
                                (lit "Child profile updated!");
                          called (setItem "children_list");
                          called (getItem "child_profile");
                          router_back])).
Proof.
  intros Hi Hfound. destruct w as [[l old] lib c ch cap ex tr].
  cbn [storage children_list] in Hfound.
  destruct i as [|c0 i]; [done|].
  run_handler.
  rewrite Hfound. destruct old; by rewrite <- !app_assoc.
Qed.



(** [handleDelete] when a list is stored. *)
Lemma handleDelete_stored (i : jsstring) (l : list ChildProfile) (w : world) :
  i <> [] -> children_list (storage w) = Some l ->
  handleDelete no_rejection (Some i) Delete w =
    (Returned tt,
     mkWorld (mkStorage (Some (without_id i l)) (child_profile (storage w)))
             (library w) (cache w) (children w) (captureData w)
             (isExporting w)
             (trace w ++
              [Alert (lit "Delete Child Profile")
                 (lit "Are you sure you want to delete this child profile? This action cannot be undone.");
               called (getItem "children_list");
               called (setItem "children_list");
               Alert (lit "Success") (lit "Child profile deleted");
               router_back])).
Proof.
  intros Hi. destruct w as [[l' old] lib c ch cap ex tr]. simpl. intros ->.
  destruct i as [|c0 i]; [done|].
  run_handler. by rewrite <- !app_assoc.
Qed.

(** [handleDelete] when no list is stored. *)
Lemma handleDelete_no_list (i : jsstring) (w : world) :
  i <> [] -> children_list (storage w) = None ->
  handleDelete no_rejection (Some i) Delete w =
    (Returned tt,
     mkWorld (storage w) (library w) (cache w) (children w) (captureData w)
             (isExporting w)
             (trace w ++
              [Alert (lit "Delete Child Profile")
                 (lit "Are you sure you want to delete this child profile? This action cannot be undone.");
               called (getItem "children_list");
               Alert (lit "Error") (lit "No children found")])).
Proof.
  intros Hi. destruct w as [[l' old] lib c ch cap ex tr]. simpl. intros ->.
  destruct i as [|c0 i]; [done|].
  run_handler. by rewrite <- !app_assoc.
Qed.

(** [handleDeleteChild] of the home screen. *)
Lemma handleDeleteChild_filters (i name : jsstring) (w : world) :
  handleDeleteChild no_rejection Delete i name w =
    (Returned tt,
     mkWorld (mkStorage (Some (without_id i (children w)))
                        (child_profile (storage w)))
             (library w) (cache w) (without_id i (children w))
             (captureData w) (isExporting w)
             (trace w ++
              [Alert (lit "Delete Child")
                 (lit "Are you sure you want to delete " ++ name ++
                  lit "'s profile?");
               called (setItem "children_list")])).
Proof.
  destruct w as [[l' old] lib c ch cap ex tr].
  run_handler. by rewrite <- !app_assoc.
Qed.

(** What the filter of both delete handlers keeps. *)
Lemma without_id_spec (i : jsstring) (l : list ChildProfile) :
  (forall c, In c (without_id i l) <-> In c l /\ id c <> Some i) /\
  ((forall c, In c l -> id c <> Some i) -> without_id i l = l) /\
  without_id i l `sublist_of` l.
Proof.
  unfold without_id. split_and!.
  - intros c. rewrite <- !list_elem_of_In, list_elem_of_filter. tauto.
  - intros H. induction l as [|c l IH]; [done|].
    rewrite filter_cons, decide_True by (apply H; by left).
    f_equal. apply IH. intros c' Hc'. apply H. by right.
  - apply sublist_filter.
Qed.

(** C2 (as amended): [delete(id)] never reports that a record is
    missing. The edit screen removes every stored record with the id,
    writes the list back and reports success whenever a list is stored,
    also when no record has the id (the list is then rewritten
    unchanged); it reports an error only when no list is stored at all,
    and writes nothing then. The home screen filters the list it shows,
    writes the result back and reports nothing. In both, no record with
    the id is left, and the records with another id are kept in order. *)
Theorem delete_filters_list (i name : jsstring) (w : world) :
  i <> [] ->
  let w1 := final (handleDelete no_rejection (Some i) Delete) w in
  let w2 := final (handleDeleteChild no_rejection Delete i name) w in
  (forall l,
     children_list (storage w) = Some l ->
     storage w1 = mkStorage (Some (without_id i l))
                            (child_profile (storage w)) /\
     In (called (setItem "children_list")) (new_events w w1) /\
     In (Alert (lit "Success") (lit "Child profile deleted"))
        (new_events w w1) /\
     (forall m, ~ In (Alert (lit "Error") m) (new_events w w1))) /\
  (children_list (storage w) = None ->
     storage w1 = storage w /\
     In (Alert (lit "Error") (lit "No children found")) (new_events w w1) /\
     forallb (fun e => negb (storage_write e)) (new_events w w1) = true) /\
  (storage w2 = mkStorage (Some (without_id i (children w)))
                          (child_profile (storage w)) /\
   children w2 = without_id i (children w) /\
   (forall t m, ~ In (Alert t m) (drop 1 (new_events w w2)))) /\
  (forall l,
     (forall c, In c (without_id i l) <-> In c l /\ id c <> Some i) /\
     ((forall c, In c l -> id c <> Some i) -> without_id i l = l) /\
     without_id i l `sublist_of` l).
Proof.
  intros Hi w1 w2. split; [|split; [|split]].
  - intros l Hl. subst w1. unfold final.
    rewrite (handleDelete_stored i l w Hi Hl). cbn [snd storage].
    rewrite new_events_mkWorld. split_and!; [done|cbn; tauto..|].
    intros m. cbn. intros [H|[H|[H|[H|[H|[]]]]]]; discriminate.
  - intros Hl. subst w1. unfold final.
    rewrite (handleDelete_no_list i w Hi Hl). cbn [snd storage].
    rewrite new_events_mkWorld. split_and!; [done|cbn; tauto|done].
  - subst w2. unfold final. rewrite handleDeleteChild_filters.
    cbn [snd storage children]. rewrite new_events_mkWorld.
    split_and!; [done..|].
    intros t m. cbn. intros [H|[]]; discriminate.
  - intros l. apply without_id_spec.
Qed.

(** C2 (as stated) fails: deleting an id that no stored record has
    reports success, not a missing record. *)
Lemma handleDelete_absent_id_reports_success :
  (forall c, In c [with_id sample_child (lit "7")] -> id c <> Some (lit "8")) /\
  In (Alert (lit "Success") (lit "Child profile deleted"))
     (trace (final (handleDelete no_rejection (Some (lit "8")) Delete)
                   (initial one_child_store []))) /\
  (forall m,
     ~ In (Alert (lit "Error") m)
          (trace (final (handleDelete no_rejection (Some (lit "8")) Delete)
                        (initial one_child_store [])))) /\
  result (handleDelete no_rejection (Some (lit "8")) Delete)
         (initial one_child_store []) = Returned tt /\
  storage (final (handleDelete no_rejection (Some (lit "8")) Delete)
                 (initial one_child_store [])) = one_child_store.
Proof.
  split_and!.
  - intros c [<-|[]]. discriminate.
  - vm_compute. tauto.
  - intros m. vm_compute. intros [H|[H|[H|[H|[H|[]]]]]]; discriminate.
  - reflexivity.
  - reflexivity.
Qed.

(** The amended claim on a store with one profile. *)
Lemma delete_filters_list_witness :
  storage (final (handleDelete no_rejection (Some (lit "7")) Delete)
                 (initial one_child_store []))
  = mkStorage (Some []) None /\
  storage (final (handleDelete no_rejection (Some (lit "7")) Delete)
                 (initial legacy_store []))
  = legacy_store.
Proof.
  split.
  - refine (proj1 (proj1 (delete_filters_list (lit "7") [] 
                            (initial one_child_store []) _) _ eq_refl)).
    discriminate.
  - refine (proj1 (proj1 (proj2 (delete_filters_list (lit "7") []
                            (initial legacy_store []) _)) eq_refl)).
    discriminate.
Defined.

(** [onSubmit] when a child is added (no route id): the new record is
    appended, then a legacy record, if any, is appended too and its key
    removed. *)
Lemma onSubmit_create (t1 t2 : N) (data : ChildProfile) (w : world) :
  storage (final (onSubmit no_rejection None t1 t2 data) w) =
    mkStorage
      (Some (default [] (children_list (storage w)) ++
             with_id data (toString_int t1) ::
             match child_profile (storage w) with
             | Some oldChild => [with_id oldChild (toString_int (t2 + 1))]
             | None => []
             end))
      None /\
  result (onSubmit no_rejection None t1 t2 data) w = Returned tt.
Proof.
  destruct w as [[l old] lib c ch cap ex tr].
  run_handler. destruct old; cbn [default from_option id storage]; split;
    try done.
  by rewrite <- app_assoc.
Qed.

(** C1 (what the code does): two profiles added at the same reading of
    the clock are both appended, under the same id. *)
Theorem onSubmit_twice_same_reading
    (t t2 t2' : N) (data1 data2 : ChildProfile) (l : list ChildProfile) :
  children_list
    (storage
       (final (onSubmit no_rejection None t t2' data2)
              (final (onSubmit no_rejection None t t2 data1)
                     (initial (mkStorage (Some l) None) []))))
  = Some (l ++ [with_id data1 (toString_int t);
                with_id data2 (toString_int t)]) /\
  id (with_id data1 (toString_int t)) = id (with_id data2 (toString_int t)).
Proof.
  split; [|done].
  destruct (onSubmit_create t t2' data2
              (final (onSubmit no_rejection None t t2 data1)
                     (initial (mkStorage (Some l) None) []))) as [-> _].
  destruct (onSubmit_create t t2 data1
              (initial (mkStorage (Some l) None) [])) as [-> _].
  cbn. by rewrite <- app_assoc.
Qed.

(** The failing input of C1: the sample profile is saved twice within
    the millisecond 1700000000000, into an empty store. *)
Lemma onSubmit_duplicate_id :
  children_list
    (storage
       (final (onSubmit no_rejection None 1700000000000 1700000000000
                        sample_child)
              (final (onSubmit no_rejection None 1700000000000 1700000000000
                               sample_child)
                     (initial (mkStorage None None) []))))
  = Some [with_id sample_child (lit "1700000000000");
          with_id sample_child (lit "1700000000000")].
Proof. reflexivity. Qed.

(** Two profiles added at different readings get different ids. *)
Lemma onSubmit_distinct_readings (t t' : N) (data1 data2 : ChildProfile) :
  t <> t' ->
  id (with_id data1 (toString_int t)) <> id (with_id data2 (toString_int t')).
Proof. intros Ht [= E]. by apply toString_int_inj in E. Qed.

(** ** Blank numeric fields *)

Section BlankFields.

Variable accepts_infinite : bool.

Local Abbreviation schema := (childSchema accepts_infinite).

Lemma number_checks_path (path : jsstring) (n : number) (checks : list check) :
  Forall (fun i => issue_path i = path)
         (concat (map (number_check path n) checks)).
Proof.
  induction checks as [|c checks IH]; [constructor|].
  cbn [map concat]. apply Forall_app. split; [|done].
  destruct c; cbn; case_match; by repeat constructor.
Qed.

Lemma coerce_number_path (checks : list check) (path : string) (v : value) :
  Forall (fun i => issue_path i = lit path)
         (issues_of (coerce_number accepts_infinite checks path v)).
Proof.
  unfold coerce_number. case_match; [by repeat constructor|].
  pose proof (number_checks_path (lit path) (Number v) checks) as Hpaths.
  destruct (concat _); [constructor|done].
Qed.

Lemma string_checks_path (path s : jsstring) (checks : list check) :
  Forall (fun i => issue_path i = path)
         (concat (map (string_check path s) checks)).
Proof.
  induction checks as [|c checks IH]; [constructor|].
  cbn [map concat]. apply Forall_app. split; [|done].
  destruct c; cbn; case_match; by repeat constructor.
Qed.

Lemma string_path (checks : list check) (path : string) (v : value) :
  Forall (fun i => issue_path i = lit path) (issues_of (string_ checks path v)).
Proof.
  destruct v; cbn; try by repeat constructor.
  pose proof (string_checks_path (lit path) s checks) as Hpaths.
  destruct (concat _); [constructor|done].
Qed.

Lemma optional_string_path (checks : list check) (path : string) (v : value) :
  Forall (fun i => issue_path i = lit path)
         (issues_of (optional (string_ checks) path v)).
Proof.
  pose proof (string_path checks path v) as Hpaths.
  destruct v; cbn in *; try by repeat constructor.
  destruct (concat _); [constructor|done].
Qed.

(** An issue of the form whose path is that of a numeric field comes
    from the parse of that field. *)
Lemma issue_of_field (raw : RawForm) (i : issue) :
  In i (issues_of (schema raw)) ->
  (issue_path i = lit "age" ->
   In i (issues_of (coerce_number accepts_infinite
           [min 0 "Age cannot be negative"; max 18 "Must be under 18"]
           "age" (raw_age raw)))) /\
  (issue_path i = lit "height" ->
   In i (issues_of (coerce_number accepts_infinite
           [min 30 "Height (cm) seems too low";
            max 250 "Height seems too high"]
           "height" (raw_height raw)))) /\
  (issue_path i = lit "weight" ->
   In i (issues_of (coerce_number accepts_infinite
           [min 2 "Weight (kg) seems too low"] "weight" (raw_weight raw)))).
Proof.
  rewrite childSchema_issues, !in_app_iff.
  pose proof (string_path [min 2 "Name must be at least 2 characters"]
                "fullName" (raw_fullName raw)) as Hn.
  pose proof (coerce_number_path
                [min 0 "Age cannot be negative"; max 18 "Must be under 18"]
                "age" (raw_age raw)) as Ha.
  pose proof (coerce_number_path
                [min 30 "Height (cm) seems too low";
                 max 250 "Height seems too high"]
                "height" (raw_height raw)) as Hh.
  pose proof (coerce_number_path [min 2 "Weight (kg) seems too low"]
                "weight" (raw_weight raw)) as Hw.
  pose proof (optional_string_path [] "gender" (raw_gender raw)) as Hg.
  pose proof (optional_string_path
                [max 300 "Notes are too long (max 300 chars)"]
                "medicalNotes" (raw_medicalNotes raw)) as Hm.
  rewrite List.Forall_forall in Hn, Ha, Hh, Hw, Hg, Hm.
  intros Hi. split_and!; intros Hp;
    destruct Hi as [Hi|[Hi|[Hi|[Hi|[Hi|Hi]]]]]; try done.
  all: first [ apply Hn in Hi | apply Ha in Hi | apply Hh in Hi
             | apply Hw in Hi | apply Hg in Hi | apply Hm in Hi ].
  all: rewrite Hi in Hp; vm_compute in Hp; discriminate.
Qed.

Lemma blank_age (raw : RawForm) :
  raw_age raw = VString [] ->
  forall i, In i (issues_of (schema raw)) -> issue_path i <> lit "age".
Proof.
  intros Hage i Hi Hp.
  apply (proj1 (issue_of_field raw i Hi)) in Hp.
  rewrite Hage in Hp. by vm_compute in Hp.
Qed.

Lemma blank_age_value (raw : RawForm) (d : ChildProfile) :
  raw_age raw = VString [] -> schema raw = success d -> age d = Fin 0.
Proof.
  intros Hage. unfold childSchema. rewrite Hage.
  replace (coerce_number accepts_infinite _ "age" (VString []))
    with (@success number (Fin 0)) by (by destruct accepts_infinite).
  repeat case_match; try discriminate. by intros [= <-].
Qed.

Lemma blank_height (raw : RawForm) :
  raw_height raw = VString [] ->
  In (too_small (lit "height") (lit "Height (cm) seems too low"))
     (issues_of (schema raw)) /\
  ~ In (invalid_type (lit "height")) (issues_of (schema raw)).
Proof.
  intros Hh. split.
  - rewrite childSchema_issues, Hh, !in_app_iff.
    right. right. left. destruct accepts_infinite; vm_compute; tauto.
  - intros Hi. apply issue_of_field in Hi as (_ & Hi & _).
    specialize (Hi eq_refl). rewrite Hh in Hi.
    destruct accepts_infinite; vm_compute in Hi; by destruct Hi.
Qed.

Lemma blank_weight (raw : RawForm) :
  raw_weight raw = VString [] ->
  In (too_small (lit "weight") (lit "Weight (kg) seems too low"))
     (issues_of (schema raw)) /\
  ~ In (invalid_type (lit "weight")) (issues_of (schema raw)).
Proof.
  intros Hw. split.
  - rewrite childSchema_issues, Hw, !in_app_iff.
    right. right. right. left. destruct accepts_infinite; vm_compute; tauto.
  - intros Hi. apply issue_of_field in Hi as (_ & _ & Hi).
    specialize (Hi eq_refl). rewrite Hw in Hi.
    destruct accepts_infinite; vm_compute in Hi; by destruct Hi.
Qed.

Lemma absent_numbers (raw : RawForm) :
  (raw_age raw = VUndefined ->
   In (invalid_type (lit "age")) (issues_of (schema raw))) /\
  (raw_height raw = VUndefined ->
   In (invalid_type (lit "height")) (issues_of (schema raw))) /\
  (raw_weight raw = VUndefined ->
   In (invalid_type (lit "weight")) (issues_of (schema raw))).
Proof.
  split_and!; intros H; rewrite childSchema_issues, H, !in_app_iff;
    rewrite (coerce_number_NaN _ _ _ VUndefined) by done;
    cbn [issues_of In]; tauto.
Qed.

End BlankFields.

(** C9: the validator coerces with [Number]. An empty-string age is the
    number 0: no issue names the age, the validated age is 0 and a
    submit stores a record of age 0. An empty-string height or weight is
    0 as well and fails the lower bound of the field, with the message
    of that bound and without a type error. Of the blank inputs only the
    absent one, [undefined], is a type error: its coercion is [NaN]. *)
Theorem blank_numeric_fields (accepts_infinite : bool) (raw : RawForm) :
  (raw_age raw = VString [] ->
     (forall i, In i (issues_of (childSchema accepts_infinite raw)) ->
                issue_path i <> lit "age") /\
     (forall d, childSchema accepts_infinite raw = success d ->
        age d = Fin 0 /\
        forall t1 t2 w, exists l,
          children_list
            (storage (final (onSubmit no_rejection None t1 t2 d) w))
          = Some l /\
          In (with_id d (toString_int t1)) l /\
          age (with_id d (toString_int t1)) = Fin 0)) /\
  (raw_height raw = VString [] ->
     In (too_small (lit "height") (lit "Height (cm) seems too low"))
        (issues_of (childSchema accepts_infinite raw)) /\
     ~ In (invalid_type (lit "height"))
          (issues_of (childSchema accepts_infinite raw))) /\
  (raw_weight raw = VString [] ->
     In (too_small (lit "weight") (lit "Weight (kg) seems too low"))
        (issues_of (childSchema accepts_infinite raw)) /\
     ~ In (invalid_type (lit "weight"))
          (issues_of (childSchema accepts_infinite raw))) /\
  (raw_age raw = VUndefined ->
     In (invalid_type (lit "age"))
        (issues_of (childSchema accepts_infinite raw))) /\
  (raw_height raw = VUndefined ->
     In (invalid_type (lit "height"))
        (issues_of (childSchema accepts_infinite raw))) /\
  (raw_weight raw = VUndefined ->
     In (invalid_type (lit "weight"))
        (issues_of (childSchema accepts_infinite raw))) /\
  Number (VString []) = Fin 0 /\ Number VUndefined = NaN.
Proof.
  split; [|split; [|split; [|split; [|split; [|split]]]]].
  - intros Hage. split; [by apply blank_age|].
    intros d Hd.
    pose proof (blank_age_value accepts_infinite raw d Hage Hd) as Ha.
    split; [done|]. intros t1 t2 w.
    destruct (onSubmit_create t1 t2 d w) as [Hs _].
    eexists. rewrite Hs. split_and!; [done| |done].
    apply in_app_iff. right. by left.
  - apply blank_height.
  - apply blank_weight.
  - apply absent_numbers.
  - apply absent_numbers.
  - apply absent_numbers.
  - done.
Qed.

(** C9 on forms with one blank or absent numeric field. *)
Lemma blank_numeric_fields_witness :
  childSchema true (text_form "Al" EmptyString "110" "18" [] [])
  = success (mkChild (lit "Al") (Fin 0) (Fin 110) (Fin 18)
                     (Some []) (Some []) None) /\
  In (too_small (lit "height") (lit "Height (cm) seems too low"))
     (issues_of (childSchema true (text_form "Al" "5" EmptyString "18" [] []))) /\
  In (too_small (lit "weight") (lit "Weight (kg) seems too low"))
     (issues_of (childSchema true (text_form "Al" "5" "110" EmptyString [] []))) /\
  In (invalid_type (lit "age"))
     (issues_of (childSchema true
                   (mkRaw (VString (lit "Al")) VUndefined
                          (VString (lit "110")) (VString (lit "18"))
                          (VString []) (VString [])))) /\
  age (mkChild (lit "Al") (Fin 0) (Fin 110) (Fin 18) (Some []) (Some []) None)
  = Fin 0.
Proof.
  split_and!.
  - reflexivity.
  - exact (proj1 (proj1 (proj2 (blank_numeric_fields true
             (text_form "Al" "5" EmptyString "18" [] []))) eq_refl)).
  - exact (proj1 (proj1 (proj2 (proj2 (blank_numeric_fields true
             (text_form "Al" "5" "110" EmptyString [] [])))) eq_refl)).
  - exact (proj1 (proj2 (proj2 (proj2 (blank_numeric_fields true
             (mkRaw (VString (lit "Al")) VUndefined
                    (VString (lit "110")) (VString (lit "18"))
                    (VString []) (VString [])))))) eq_refl).
  - exact (proj1 (proj2 (proj1 (blank_numeric_fields true
             (text_form "Al" EmptyString "110" "18" [] [])) eq_refl)
             (mkChild (lit "Al") (Fin 0) (Fin 110) (Fin 18)
                      (Some []) (Some []) None) eq_refl)).
Defined.

(** ** The export renderer *)

Lemma substring_intro (s before after : jsstring) :
  substring s (before ++ s ++ after).
Proof. by exists before, after. Qed.

Lemma string_or_Some (s fallback : jsstring) :
  s <> [] -> string_or (Some s) fallback = s.
Proof. by destruct s. Qed.

Section Document.

Variable numberToString : number -> jsstring.

Local Abbreviation html := (buildPdfHtml numberToString).

(** The document, cut around one of its six values. *)
Lemma buildPdfHtml_around (data : PdfChildData) :
  (exists after, html data = html_0 ++ pdf_fullName data ++ after) /\
  (exists before after,
     html data
     = before ++ string_or (pdf_gender data) em_dash ++ after) /\
  (exists before after,
     html data
     = before ++ string_or (pdf_medicalNotes data) none_provided ++ after).
Proof.
  unfold buildPdfHtml. split_and!.
  - eauto.
  - exists (html_0 ++ pdf_fullName data ++ html_1 ++
            number_or_empty numberToString (pdf_age data) ++ html_2).
    eexists. rewrite <- !app_assoc. reflexivity.
  - exists (html_0 ++ pdf_fullName data ++ html_1 ++
            number_or_empty numberToString (pdf_age data) ++ html_2 ++
            string_or (pdf_gender data) em_dash ++ html_3 ++
            number_or_empty numberToString (pdf_height data) ++ html_4 ++
            number_or_empty numberToString (pdf_weight data) ++ html_5).
    eexists. rewrite <- !app_assoc. reflexivity.
Qed.

(** The name sits directly between the tags of its value element. *)
Lemma buildPdfHtml_name_span (data : PdfChildData) :
  substring (value_span (pdf_fullName data)) (html data).
Proof.
  unfold buildPdfHtml, value_span.
  exists (take (length html_0 - 20) html_0),
         (drop 7 html_1 ++
          number_or_empty numberToString (pdf_age data) ++ html_2 ++
          string_or (pdf_gender data) em_dash ++ html_3 ++
          number_or_empty numberToString (pdf_height data) ++ html_4 ++
          number_or_empty numberToString (pdf_weight data) ++ html_5 ++
          string_or (pdf_medicalNotes data) none_provided ++ html_6).
  replace html_0 with
    (take (length html_0 - 20) html_0 ++
     lit "<span class=" ++ dquote ++ lit "value" ++ dquote ++ lit ">")
    at 1 by (by vm_compute).
  replace html_1 with (lit "</span>" ++ drop 7 html_1) at 1
    by (by vm_compute).
  by rewrite <- !app_assoc.
Qed.

End Document.

(** C10: [buildPdfHtml] puts the name, the gender and the medical notes
    into the document as they are: the document is the template text
    with the six values in its six places, so the name, a non-empty
    gender and non-empty notes occur in it unchanged, and the name is the
    whole content of its [span] element, whatever markup it contains. *)
Theorem buildPdfHtml_verbatim (numberToString : number -> jsstring)
    (data : PdfChildData) :
  pdf_shows (buildPdfHtml numberToString data)
    (pdf_fullName data)
    (number_or_empty numberToString (pdf_age data))
    (string_or (pdf_gender data) em_dash)
    (number_or_empty numberToString (pdf_height data))
    (number_or_empty numberToString (pdf_weight data))
    (string_or (pdf_medicalNotes data) none_provided) /\
  substring (pdf_fullName data) (buildPdfHtml numberToString data) /\
  substring (value_span (pdf_fullName data))
            (buildPdfHtml numberToString data) /\
  (forall g, pdf_gender data = Some g -> g <> [] ->
             substring g (buildPdfHtml numberToString data)) /\
  (forall m, pdf_medicalNotes data = Some m -> m <> [] ->
             substring m (buildPdfHtml numberToString data)).
Proof.
  destruct (buildPdfHtml_around numberToString data)
    as ((a1 & E1) & (b2 & a2 & E2) & (b3 & a3 & E3)).
  split_and!.
  - reflexivity.
  - rewrite E1. apply substring_intro.
  - apply buildPdfHtml_name_span.
  - intros g Hg Hne. rewrite E2, Hg, string_or_Some by done.
    apply substring_intro.
  - intros m Hm Hne. rewrite E3, Hm, string_or_Some by done.
    apply substring_intro.
Qed.

(** C10 on a record with markup in its three text fields. *)
Lemma buildPdfHtml_verbatim_witness :
  substring (lit "<b>Al</b>") (buildPdfHtml (fun _ => []) markup_data) /\
  substring (lit "<i>f</i>") (buildPdfHtml (fun _ => []) markup_data) /\
  substring (lit "<script>x</script>")
            (buildPdfHtml (fun _ => []) markup_data).
Proof.
  pose proof (buildPdfHtml_verbatim (fun _ => []) markup_data)
    as (_ & Hn & _ & Hg & Hm).
  split_and!.
  - exact Hn.
  - apply (Hg (lit "<i>f</i>")); [reflexivity|discriminate].
  - apply (Hm (lit "<script>x</script>")); [reflexivity|discriminate].
Defined.

(** A validated name has at least two code units. *)
Lemma validated_name_length (accepts_infinite : bool) (raw : RawForm)
    (d : ChildProfile) :
  childSchema accepts_infinite raw = success d ->
  (2 <= length (fullName d))%nat.
Proof.
  unfold childSchema.
  destruct (raw_fullName raw) as [| | | |s] eqn:Hn;
    try (cbn; repeat case_match; discriminate).
  destruct (Z.ltb_spec (Z.of_nat (length s)) 2) as [Hlt|Hge].
  - rewrite string_min_short by done. repeat case_match; discriminate.
  - rewrite string_min_ok by done.
    repeat case_match; try discriminate. intros [= <-]. cbn. lia.
Qed.

Lemma title_in_template :
  exists before after,
    html_0 = before ++ lit "<h1>Child Guard ID</h1>" ++ after.
Proof.
  exists (take 622 html_0), (drop 645 html_0). by vm_compute.
Qed.

Section Artifacts.

Variable numberToString : number -> jsstring.

Lemma document_shows (d : ChildProfile) :
  pdf_shows (buildPdfHtml numberToString (as_pdf_data d))
    (fullName d) (numberToString (age d))
    (string_or (gender d) em_dash)
    (numberToString (height d)) (numberToString (weight d))
    (string_or (medicalNotes d) none_provided).
Proof. reflexivity. Qed.

Lemma card_shows_fields (fallback : jsstring) (d : ChildProfile) :
  card_shows (capture_card numberToString fallback (Some d))
    (or_else (trim (fullName d)) (lit "Name missing"))
    (numberToString (age d))
    (string_or (gender d) fallback)
    (numberToString (height d)) (numberToString (weight d))
    (string_or (medicalNotes d) none_provided).
Proof.
  unfold card_shows, capture_card. cbn [texts flat_map app fmap option_fmap
    option_map mbind option_bind number_or_empty].
  unfold string_or at 1. cbn [default from_option].
  by destruct (fullName d).
Qed.

Lemma shown_name_trimmed (d : ChildProfile) :
  fullName d <> [] -> trim (fullName d) = fullName d ->
  or_else (trim (fullName d)) (lit "Name missing") = fullName d.
Proof. intros Hne ->. by destruct (fullName d). Qed.

Lemma gender_given (fallback : jsstring) (d : ChildProfile) :
  truthy (gender d) = true ->
  string_or (gender d) fallback = string_or (gender d) em_dash.
Proof. by destruct (gender d) as [[|c g]|]. Qed.

End Artifacts.

(** C5 (as amended): for every validated profile the document and the
    capture card show the same title, age, height, weight and medical
    notes, with the same [None provided] placeholder, and the same
    gender when a gender is given. The document shows the name as it
    is, the card shows it without the surrounding white space (or
    [Name missing] when nothing is left): for a name without leading or
    trailing white space the two artifacts show the same field content,
    on the card of add_child.tsx for every gender and on the card of
    the revision that prints the document for a given gender. *)
Theorem artifacts_show_same_fields (numberToString : number -> jsstring)
    (accepts_infinite : bool) (raw : RawForm) (d : ChildProfile) :
  childSchema accepts_infinite raw = success d ->
  let html := buildPdfHtml numberToString (as_pdf_data d) in
  let shown_name := or_else (trim (fullName d)) (lit "Name missing") in
  pdf_shows html
    (fullName d) (numberToString (age d))
    (string_or (gender d) em_dash)
    (numberToString (height d)) (numberToString (weight d))
    (string_or (medicalNotes d) none_provided) /\
  card_shows (captureCard numberToString (Some d))
    shown_name (numberToString (age d))
    (string_or (gender d) em_dash)
    (numberToString (height d)) (numberToString (weight d))
    (string_or (medicalNotes d) none_provided) /\
  card_shows (PdfScreen.captureCard numberToString (Some d))
    shown_name (numberToString (age d))
    (string_or (gender d) PdfScreen.gender_fallback)
    (numberToString (height d)) (numberToString (weight d))
    (string_or (medicalNotes d) none_provided) /\
  substring (lit "<h1>Child Guard ID</h1>") html /\
  (trim (fullName d) = fullName d ->
     same_field_content html (captureCard numberToString (Some d)) /\
     (truthy (gender d) = true ->
        same_field_content html
          (PdfScreen.captureCard numberToString (Some d)))).
Proof.
  intros Hvalid html shown_name.
  pose proof (document_shows numberToString d) as Hpdf.
  pose proof (card_shows_fields numberToString em_dash d) as Hcard.
  pose proof (card_shows_fields numberToString PdfScreen.gender_fallback d)
    as Hcard'.
  split_and!; try done.
  - destruct title_in_template as (before & after & E).
    subst html. unfold buildPdfHtml. rewrite E, <- !app_assoc.
    apply substring_intro.
  - intros Htrim.
    assert (Hname : shown_name = fullName d).
    { apply shown_name_trimmed; [|done].
      pose proof (validated_name_length _ _ _ Hvalid) as Hlen.
      intros E. rewrite E in Hlen. cbn in Hlen. lia. }
    fold shown_name in Hcard, Hcard'. rewrite Hname in Hcard, Hcard'.
    split.
    + by repeat eexists.
    + intros Hg. rewrite (gender_given _ d Hg) in Hcard'.
      by repeat eexists.
Qed.

(** C5 (as stated) fails: a name of two spaces is valid; the document
    shows it, the card shows [Name missing]. *)
Lemma card_name_differs_from_document :
  ~ (forall (numberToString : number -> jsstring) accepts_infinite raw d,
       childSchema accepts_infinite raw = success d ->
       same_field_content
         (buildPdfHtml numberToString (as_pdf_data d))
         (PdfScreen.captureCard numberToString (Some d))).
Proof.
  intros H.
  destruct (H (fun _ => []) true blank_name_form
              (mkChild (lit "  ") (Fin 5) (Fin 110) (Fin 18)
                       (Some (lit "F")) (Some []) None) eq_refl)
    as (name & a & g & h & w & n & Hpdf & Hcard).
  unfold card_shows in Hcard. vm_compute in Hcard.
  injection Hcard as <- _ _ _ _ _.
  unfold pdf_shows, buildPdfHtml in Hpdf.
  apply app_inv_head in Hpdf. discriminate Hpdf.
Qed.

(** The amended claim on the sample profile. *)
Lemma artifacts_show_same_fields_witness :
  same_field_content
    (buildPdfHtml (fun _ => []) (as_pdf_data sample_child))
    (captureCard (fun _ => []) (Some sample_child)).
Proof.
  refine (proj1 (proj2 (proj2 (proj2 (proj2
            (artifacts_show_same_fields (fun _ => []) true
               (text_form "Al" "5" "110" "18" [] []) sample_child
               eq_refl)))) eq_refl)).
Defined.

(** ** Export and the permission to the photo library *)

(** Decides every platform call of the goal and normalises the trace. *)
Ltac decide_calls rejects :=
  repeat match goal with
  | |- context [if rejects ?o then _ else _] =>
      let E := fresh "Hcall" in destruct (rejects o) eqn:E
  | |- context [match find_album ?n ?l with _ => _ end] =>
      destruct (find_album n l)
  end.

Section Permission.

Variable numberToString : number -> jsstring.
Variable rejects : op -> bool.
Variable mounted : bool.

(** Every run asks for the permission before it writes to the library. *)
Lemma export_asks_first (answer : PermissionStatus) (data : ChildProfile)
    (w : world) :
  permission_first
    (new_events w
       (final (Renderer.exportPdfAndImage rejects mounted answer data) w))
  = true /\
  permission_first
    (new_events w
       (final (PdfScreen.exportPdfAndImage numberToString rejects mounted
                 answer data) w))
  = true.
Proof.
  destruct w as [s lib c ch cap ex tr].
  split; destruct mounted, answer; run_handler; decide_calls rejects;
    rewrite <- ?app_assoc; rewrite ?new_events_mkWorld; try reflexivity.
  all: unfold new_events; cbn [trace]; rewrite drop_all; reflexivity.
Qed.

(** Without the permission nothing reaches the photo library. *)
Lemma export_denied (answer : PermissionStatus) (data : ChildProfile)
    (w : world) (m : M unit) :
  m = Renderer.exportPdfAndImage rejects mounted answer data \/
  m = PdfScreen.exportPdfAndImage numberToString rejects mounted answer
        data ->
  answer <> granted ->
  library (final m w) = library w /\
  forallb (fun e => negb (library_write e)) (new_events w (final m w)) = true /\
  isExporting (final m w) = false /\
  result m w = Returned tt /\
  (In (called requestPermissionsAsync) (new_events w (final m w)) ->
   rejects requestPermissionsAsync = false ->
   In permission_alert (new_events w (final m w))).
Proof.
  intros Hm Hanswer. destruct w as [s lib c ch cap ex tr].
  destruct Hm as [-> | ->]; destruct mounted, answer; try done;
    run_handler; decide_calls rejects;
    rewrite <- ?app_assoc; rewrite ?new_events_mkWorld; cbn [app];
    split_and!; try reflexivity; cbn [In]; intros Hin Hrej;
    try discriminate; unfold permission_alert; try tauto;
    repeat destruct Hin as [Hin|Hin]; try discriminate; try done.
Qed.

End Permission.

(** C4: permission to the photo library is asked before anything is
    saved to the library, in every run of both revisions of the export.
    When the permission is not granted, nothing is saved to the library,
    neither an asset nor an album, and no call that would save is made:
    the export stops, the user is told that the permission is needed,
    and the handler returns with the export flag cleared. *)
Theorem export_without_permission
    (numberToString : number -> jsstring) (rejects : op -> bool)
    (mounted : bool) (answer : PermissionStatus) (data : ChildProfile)
    (w : world) :
  let w1 :=
    final (Renderer.exportPdfAndImage rejects mounted answer data) w in
  let w2 :=
    final (PdfScreen.exportPdfAndImage numberToString rejects mounted
             answer data) w in
  permission_first (new_events w w1) = true /\
  permission_first (new_events w w2) = true /\
  (answer <> granted ->
     library w1 = library w /\ library w2 = library w /\
     forallb (fun e => negb (library_write e)) (new_events w w1) = true /\
     forallb (fun e => negb (library_write e)) (new_events w w2) = true /\
     isExporting w1 = false /\ isExporting w2 = false /\
     result (Renderer.exportPdfAndImage rejects mounted answer data) w
     = Returned tt /\
     result (PdfScreen.exportPdfAndImage numberToString rejects mounted
               answer data) w
     = Returned tt /\
     (In (called requestPermissionsAsync) (new_events w w1) ->
      rejects requestPermissionsAsync = false ->
      In permission_alert (new_events w w1)) /\
     (In (called requestPermissionsAsync) (new_events w w2) ->
      rejects requestPermissionsAsync = false ->
      In permission_alert (new_events w w2))).
Proof.
  intros w1 w2.
  destruct (export_asks_first numberToString rejects mounted answer data w)
    as [H1 H2].
  split; [done|]. split; [done|]. intros Hanswer.
  destruct (export_denied numberToString rejects mounted answer data w _
              (or_introl eq_refl) Hanswer) as (L1 & F1 & E1 & R1 & A1).
  destruct (export_denied numberToString rejects mounted answer data w _
              (or_intror eq_refl) Hanswer) as (L2 & F2 & E2 & R2 & A2).
  by split_and!.
Qed.

(** C4 when the user denies the permission and every call succeeds, in
    the revision whose export reaches the request: the library stays
    empty, the user is told, and the handler returns. *)
Lemma export_without_permission_witness :
  library (final (PdfScreen.exportPdfAndImage (fun _ => []) no_rejection true
                    denied sample_child)
                 (initial (mkStorage None None) []))
  = mkLibrary [] [] /\
  In permission_alert
     (new_events (initial (mkStorage None None) [])
        (final (PdfScreen.exportPdfAndImage (fun _ => []) no_rejection true
                  denied sample_child)
               (initial (mkStorage None None) []))).
Proof.
  destruct (proj2 (proj2 (export_without_permission (fun _ => [])
                            no_rejection true denied sample_child
                            (initial (mkStorage None None) [])))
                  ltac:(discriminate))
    as (_ & L2 & _ & _ & _ & _ & _ & _ & _ & A2).
  split.
  - exact L2.
  - apply A2; [|reflexivity]. vm_compute. tauto.
Defined.

(** * Further properties of the screens *)

(** Unfolds the handlers of the further screens as well. *)
Ltac run_more :=
  cbv beta iota zeta delta
    [EditForm.loadChildForEdit EditForm.on_open HomeWeb.performDelete
     HomeWeb.handleDeleteChild HomeWeb.window_dialog];
  run_handler.

(** Runs a handler under an arbitrary pattern of rejections: the calls
    are laid bare and decided first, then the run is computed. *)
Ltac run_with rejects :=
  cbv beta delta
    [loadChildren handleDeleteChild handleDelete onSubmit save
     EditForm.loadChildForEdit EditForm.on_open HomeWeb.performDelete
     HomeWeb.handleDeleteChild
     Renderer.exportPdfAndImage PdfScreen.exportPdfAndImage save_image
     captureRef_ printToFileAsync_
     requestPermissionsAsync_ createAssetAsync_ getAlbumAsync_
     createAlbumAsync_ addAssetsToAlbumAsync_
     getItem_children_list getItem_child_profile setItem_children_list
     removeItem_child_profile call final result];
  repeat match goal with
  | |- context [rejects ?o] =>
      let E := fresh "Hcall" in destruct (rejects o) eqn:E
  end;
  run_more.

(** Decides the look-ups a run depends on. *)
Ltac decide_lookups :=
  repeat match goal with
  | |- context [match find_album ?n ?l with _ => _ end] =>
      destruct (find_album n l)
  | |- context [match findIndex ?i ?l with _ => _ end] =>
      destruct (findIndex i l)
  | |- context [match EditForm.find ?i ?l with _ => _ end] =>
      destruct (EditForm.find i l)
  end.

(** ** Loading the list *)

(** X1: when a list is stored, or when nothing is stored at all,
    [loadChildren] shows the stored list (the empty list when there is
    none) and writes nothing: a legacy record beside a stored list is
    neither shown nor migrated. *)
Theorem loadChildren_without_migration (now : N) (w : world) :
  children_list (storage w) <> None \/ child_profile (storage w) = None ->
  let w' := final (loadChildren no_rejection now) w in
  children w' = default [] (children_list (storage w)) /\
  storage w' = storage w /\
  forallb (fun e => negb (storage_write e)) (new_events w w') = true.
Proof.
  destruct w as [[l old] lib c ch cap ex tr]. cbn [storage children_list
    child_profile]. intros Hcase.
  destruct l as [l|]; [|destruct old as [old|]; [by destruct Hcase|]];
    run_handler; rewrite <- ?app_assoc, ?new_events_mkWorld; by split_and!.
Qed.

Lemma loadChildren_without_migration_witness :
  children (final (loadChildren no_rejection 5)
                  (initial (mkStorage (Some [with_id sample_child (lit "7")])
                                      (Some other_child)) []))
  = [with_id sample_child (lit "7")] /\
  storage (final (loadChildren no_rejection 5)
                 (initial (mkStorage (Some [with_id sample_child (lit "7")])
                                     (Some other_child)) []))
  = mkStorage (Some [with_id sample_child (lit "7")]) (Some other_child) /\
  children (final (loadChildren no_rejection 5) fresh_world) = [].
Proof.
  split; [|split].
  - refine (proj1 (loadChildren_without_migration 5 _ _)).
    left. discriminate.
  - refine (proj1 (proj2 (loadChildren_without_migration 5 _ _))).
    left. discriminate.
  - refine (proj1 (loadChildren_without_migration 5 fresh_world _)).
    right. reflexivity.
Defined.

(** ** Failures of the platform *)

Lemma loadChildren_returns (rejects : op -> bool) (w : world) (now : N) :
  result (loadChildren rejects now) w = Returned tt.
Proof.
  destruct w as [[l old] lib c ch cap ex tr].
  destruct l, old; run_with rejects; reflexivity.
Qed.

Lemma onSubmit_returns (rejects : op -> bool) (w : world)
    (route_id : option jsstring) (t1 t2 : N)
    (data : ChildProfile) :
  result (onSubmit rejects route_id t1 t2 data) w = Returned tt.
Proof.
  destruct w as [[l old] lib c ch cap ex tr].
  destruct route_id as [[|c0 i]|]; destruct l, old; run_with rejects;
    decide_lookups; reflexivity.
Qed.

Lemma handleDelete_returns (rejects : op -> bool) (w : world)
    (route_id : option jsstring) (pressed : button) :
  result (handleDelete rejects route_id pressed) w = Returned tt.
Proof.
  destruct w as [[l old] lib c ch cap ex tr].
  destruct route_id as [[|c0 i]|], pressed; destruct l; run_with rejects;
    reflexivity.
Qed.

Lemma handleDeleteChild_returns (rejects : op -> bool) (w : world)
    (pressed : button) (i name : jsstring) :
  result (handleDeleteChild rejects pressed i name) w = Returned tt.
Proof.
  destruct w as [[l old] lib c ch cap ex tr].
  destruct pressed; run_with rejects; reflexivity.
Qed.

Lemma HomeWeb_handleDeleteChild_returns (rejects : op -> bool) (w : world)
    (os : HomeWeb.platform)
    (answer : option bool) (pressed : button) (i name : jsstring) :
  result (HomeWeb.handleDeleteChild rejects os answer pressed i name) w
  = Returned tt.
Proof.
  destruct w as [[l old] lib c ch cap ex tr].
  destruct os, answer as [[]|], pressed; run_with rejects; reflexivity.
Qed.

Lemma loadChildForEdit_returns (rejects : op -> bool) (w : world)
    (i : jsstring) :
  exists values,
    result (EditForm.loadChildForEdit rejects i) w = Returned values.
Proof.
  destruct w as [[l old] lib c ch cap ex tr].
  destruct l; run_with rejects; decide_lookups; eauto.
Qed.

Lemma exportPdfAndImage_returns (rejects : op -> bool) (w : world)
    (numberToString : number -> jsstring)
    (mounted : bool) (answer : PermissionStatus) (data : ChildProfile) :
  result (Renderer.exportPdfAndImage rejects mounted answer data) w
  = Returned tt /\
  result (PdfScreen.exportPdfAndImage numberToString rejects mounted
            answer data) w
  = Returned tt.
Proof.
  destruct w as [[l old] lib c ch cap ex tr].
  destruct mounted, answer; split; run_handler; decide_calls rejects;
    reflexivity.
Qed.

(** X2: no handler lets a rejected platform call escape: whatever calls
    reject, each handler returns. *)
Theorem rejections_are_caught (numberToString : number -> jsstring)
    (rejects : op -> bool) (w : world) :
  (forall now, result (loadChildren rejects now) w = Returned tt) /\
  (forall route_id t1 t2 data,
     result (onSubmit rejects route_id t1 t2 data) w = Returned tt) /\
  (forall route_id pressed,
     result (handleDelete rejects route_id pressed) w = Returned tt) /\
  (forall pressed i name,
     result (handleDeleteChild rejects pressed i name) w = Returned tt) /\
  (forall os answer pressed i name,
     result (HomeWeb.handleDeleteChild rejects os answer pressed i name) w
     = Returned tt) /\
  (forall i, exists values,
     result (EditForm.loadChildForEdit rejects i) w = Returned values) /\
  (forall mounted answer data,
     result (Renderer.exportPdfAndImage rejects mounted answer data) w
     = Returned tt /\
     result (PdfScreen.exportPdfAndImage numberToString rejects mounted
               answer data) w
     = Returned tt).
Proof.
  exact (conj (loadChildren_returns rejects w)
        (conj (onSubmit_returns rejects w)
        (conj (handleDelete_returns rejects w)
        (conj (handleDeleteChild_returns rejects w)
        (conj (HomeWeb_handleDeleteChild_returns rejects w)
        (conj (loadChildForEdit_returns rejects w)
              (exportPdfAndImage_returns rejects w numberToString))))))).
Qed.

(** X3: when a storage call of [loadChildren] rejects, the home screen
    shows the empty list, also when a list is stored. *)
Theorem loadChildren_rejection_shows_nothing (rejects : op -> bool)
    (now : N) (w : world) :
  (exists o,
     In (called o) (new_events w (final (loadChildren rejects now) w)) /\
     rejects o = true) ->
  children (final (loadChildren rejects now) w) = [].
Proof.
  destruct w as [[l old] lib c ch cap ex tr].
  destruct l, old; run_with rejects;
    rewrite <- ?app_assoc, ?new_events_mkWorld; cbn [app];
    intros (o & Hin & Hrej); try reflexivity; cbn [In] in Hin;
    repeat destruct Hin as [Hin|Hin]; try done;
    injection Hin as <-; congruence.
Qed.

Lemma loadChildren_rejection_shows_nothing_witness :
  children (final (loadChildren storage_rejects 5)
                  (initial one_child_store [with_id sample_child (lit "7")]))
  = [].
Proof.
  apply loadChildren_rejection_shows_nothing.
  exists (getItem "children_list"). split; [|reflexivity].
  vm_compute. tauto.
Defined.

(** X4: when the removal of the legacy key rejects during the migration
    of [loadChildren], the migrated list is already stored and the
    legacy record stays; the next child that is added migrates the
    legacy record again, so the list then holds it twice. *)
Theorem failed_removal_duplicates_legacy (rejects : op -> bool)
    (legacy data : ChildProfile) (t t1 t2 : N) (w : world) :
  children_list (storage w) = None ->
  child_profile (storage w) = Some legacy ->
  rejects (getItem "children_list") = false ->
  rejects (getItem "child_profile") = false ->
  rejects (setItem "children_list") = false ->
  rejects (removeItem "child_profile") = true ->
  json_faithful data = true ->
  let w1 := final (loadChildren rejects t) w in
  let w2 := final (onSubmit no_rejection None t1 t2 data) w1 in
  storage w1 = mkStorage (Some [with_id legacy (toString_int t)])
                         (Some legacy) /\
  children w1 = [] /\
  storage w2 = mkStorage (Some [with_id legacy (toString_int t);
                                with_id data (toString_int t1);
                                with_id legacy (toString_int (t2 + 1))])
                         None.
Proof.
  destruct w as [[l old] lib c ch cap ex tr]. cbn [storage children_list
    child_profile]. intros -> -> H1 H2 H3 H4 _.
  run_with rejects; try congruence. by split_and!.
Qed.

Lemma failed_removal_duplicates_legacy_witness :
  storage (final (onSubmit no_rejection None 20 30 other_child)
                 (final (loadChildren removal_rejects 10)
                        (initial legacy_store [])))
  = mkStorage (Some [with_id sample_child (lit "10");
                     with_id other_child (lit "20");
                     with_id sample_child (lit "31")])
              None.
Proof.
  refine (proj2 (proj2 (failed_removal_duplicates_legacy removal_rejects
            sample_child other_child 10 20 30 (initial legacy_store [])
            _ _ _ _ _ _ _))); reflexivity.
Defined.

(** X5: a legacy record is migrated once, by whichever handler meets it
    first. When the home screen loads first, the legacy record gets the
    reading of that load and comes before a child added later; when a
    child is added first, the legacy record comes after it, with the
    second reading plus one as its id. In that case the two new ids are
    equal exactly when the first reading is the second plus one. *)
Theorem legacy_migrated_once (legacy data : ChildProfile) (t t1 t2 : N)
    (w : world) :
  children_list (storage w) = None ->
  child_profile (storage w) = Some legacy ->
  json_faithful data = true ->
  storage (final (onSubmit no_rejection None t1 t2 data)
                 (final (loadChildren no_rejection t) w))
  = mkStorage (Some [with_id legacy (toString_int t);
                     with_id data (toString_int t1)]) None /\
  storage (final (onSubmit no_rejection None t1 t2 data) w)
  = mkStorage (Some [with_id data (toString_int t1);
                     with_id legacy (toString_int (t2 + 1))]) None /\
  storage (final (loadChildren no_rejection t)
                 (final (onSubmit no_rejection None t1 t2 data) w))
  = storage (final (onSubmit no_rejection None t1 t2 data) w) /\
  (id (with_id data (toString_int t1))
   = id (with_id legacy (toString_int (t2 + 1))) <-> t1 = t2 + 1).
Proof.
  destruct w as [[l old] lib c ch cap ex tr]. cbn [storage children_list
    child_profile]. intros -> -> _.
  split; [by run_handler|]. split; [by run_handler|].
  split; [by run_handler|].
  cbn [with_id id]. split.
  - intros [= E]. by apply toString_int_inj.
  - by intros ->.
Qed.

Lemma legacy_migrated_once_witness :
  storage (final (onSubmit no_rejection None 20 30 other_child)
                 (final (loadChildren no_rejection 10)
                        (initial legacy_store [])))
  = mkStorage (Some [with_id sample_child (lit "10");
                     with_id other_child (lit "20")]) None /\
  storage (final (onSubmit no_rejection None 20 30 other_child)
                 (initial legacy_store []))
  = mkStorage (Some [with_id other_child (lit "20");
                     with_id sample_child (lit "31")]) None.
Proof.
  split.
  - refine (proj1 (legacy_migrated_once sample_child other_child 10 20 30
                     (initial legacy_store []) _ _ _)); reflexivity.
  - refine (proj1 (proj2 (legacy_migrated_once sample_child other_child
                            10 20 30 (initial legacy_store []) _ _ _)));
      reflexivity.
Defined.

(** X6: [onSubmit] announces success before it writes. When the write
    of the list rejects, the user is told that the profile was saved (or
    updated) and then that saving failed; the store is unchanged and the
    screen is not left. *)
Theorem onSubmit_announces_before_writing (rejects : op -> bool)
    (route_id : option jsstring) (t1 t2 : N) (data : ChildProfile)
    (w : world) :
  rejects (getItem "children_list") = false ->
  rejects (setItem "children_list") = true ->
  (forall i, edit_target route_id = Some i ->
   exists k, findIndex i (default [] (children_list (storage w))) = Some k) ->
  let w' := final (onSubmit rejects route_id t1 t2 data) w in
  storage w' = storage w /\
  new_events w w' =
    [called (getItem "children_list");
     Alert (lit "Success")
           (lit (if isEditMode route_id then "Child profile updated!"
                 else "Child profile saved!"));
     called (setItem "children_list");
     Alert (lit "Error") (lit "Failed to save data")].
Proof.
  destruct w as [[l old] lib c ch cap ex tr]. cbn [storage children_list].
  intros H1 H2 Hfound.
  destruct route_id as [[|c0 i]|]; cbn [isEditMode truthy].
  - run_with rejects; try congruence;
      rewrite <- ?app_assoc, ?new_events_mkWorld; by split.
  - destruct (Hfound (c0 :: i) eq_refl) as [k Hk].
    run_with rejects; try congruence; rewrite Hk;
      rewrite <- ?app_assoc, ?new_events_mkWorld; by split.
  - run_with rejects; try congruence;
      rewrite <- ?app_assoc, ?new_events_mkWorld; by split.
Qed.

Lemma onSubmit_announces_before_writing_witness :
  storage (final (onSubmit writes_reject None 20 30 other_child)
                 (initial one_child_store []))
  = one_child_store /\
  In (Alert (lit "Success") (lit "Child profile saved!"))
     (new_events (initial one_child_store [])
        (final (onSubmit writes_reject None 20 30 other_child)
               (initial one_child_store []))).
Proof.
  destruct (onSubmit_announces_before_writing writes_reject None 20 30
              other_child (initial one_child_store []) eq_refl eq_refl)
    as [Hs He].
  - intros i. discriminate.
  - split; [exact Hs|]. rewrite He. right. left. reflexivity.
Defined.

(** ** Generated ids *)

(** An id made from a clock reading is never the empty string, so the
    screen that is opened with it is in edit mode. *)
Lemma toString_int_nonempty (n : N) : toString_int n <> [].
Proof.
  unfold toString_int. destruct n as [|p]; [done|].
  cbn [N.to_uint].
  pose proof (DecimalPos.Unsigned.to_uint_nonnil p) as Hp.
  by destruct (Pos.to_uint p).
Qed.

Lemma edit_target_generated (n : N) :
  edit_target (Some (toString_int n)) = Some (toString_int n).
Proof.
  pose proof (toString_int_nonempty n) as Hn.
  by destruct (toString_int n).
Qed.

(** ** Deleting *)

Lemma without_id_app (i : jsstring) (l1 l2 : list ChildProfile) :
  without_id i (l1 ++ l2) = without_id i l1 ++ without_id i l2.
Proof. apply filter_app. Qed.

Lemma without_id_all (i : jsstring) (l : list ChildProfile) :
  (forall c, In c l -> id c <> Some i) -> without_id i l = l.
Proof. apply without_id_spec. Qed.

Lemma without_id_hit (i : jsstring) (c : ChildProfile)
    (l : list ChildProfile) :
  id c = Some i -> without_id i (c :: l) = without_id i l.
Proof.
  intros Hc. unfold without_id. rewrite filter_cons.
  destruct (decide (id c <> Some i)); [done|reflexivity].
Qed.

(** X7: when exactly one stored record has the id, [handleDelete]
    removes that record and nothing else: the stored list is the old one
    without it, one shorter, in the same order. *)
Theorem handleDelete_exact (i : jsstring) (c : ChildProfile)
    (l1 l2 : list ChildProfile) (w : world) :
  i <> [] ->
  children_list (storage w) = Some (l1 ++ c :: l2) ->
  id c = Some i ->
  (forall c', In c' (l1 ++ l2) -> id c' <> Some i) ->
  let w' := final (handleDelete no_rejection (Some i) Delete) w in
  children_list (storage w') = Some (l1 ++ l2) /\
  S (length (l1 ++ l2)) = length (l1 ++ c :: l2) /\
  child_profile (storage w') = child_profile (storage w).
Proof.
  intros Hi Hl Hc Hothers w'. subst w'. unfold final.
  rewrite (handleDelete_stored i _ w Hi Hl). cbn [snd storage children_list
    child_profile].
  rewrite without_id_app, without_id_hit by done.
  rewrite <- without_id_app, without_id_all by done.
  split_and!; [done| |done]. rewrite !length_app. cbn. lia.
Qed.

Lemma handleDelete_exact_witness :
  children_list
    (storage (final (handleDelete no_rejection (Some (lit "7")) Delete)
                    (initial (mkStorage
                                (Some [with_id other_child (lit "3");
                                       with_id sample_child (lit "7");
                                       with_id other_child (lit "9")])
                                None) [])))
  = Some [with_id other_child (lit "3"); with_id other_child (lit "9")].
Proof.
  refine (proj1 (handleDelete_exact (lit "7") (with_id sample_child (lit "7"))
                   [with_id other_child (lit "3")]
                   [with_id other_child (lit "9")]
                   (initial (mkStorage
                               (Some [with_id other_child (lit "3");
                                      with_id sample_child (lit "7");
                                      with_id other_child (lit "9")])
                               None) []) _ eq_refl eq_refl _)).
  - discriminate.
  - intros c' [<-|[<-|[]]]; discriminate.
Defined.

(** X8: two profiles added at the same reading share their id, and
    deleting that id removes both: the store is back at the list from
    before the two were added. *)
Theorem same_reading_profiles_deleted_together
    (t t2 t2' : N) (data1 data2 : ChildProfile) (l : list ChildProfile) :
  (forall c, In c l -> id c <> Some (toString_int t)) ->
  children_list
    (storage
       (final (handleDelete no_rejection (Some (toString_int t)) Delete)
          (final (onSubmit no_rejection None t t2' data2)
             (final (onSubmit no_rejection None t t2 data1)
                (initial (mkStorage (Some l) None) [])))))
  = Some l.
Proof.
  intros Hfresh.
  set (w2 := final (onSubmit no_rejection None t t2' data2) _).
  assert (Hl : children_list (storage w2) =
               Some (l ++ [with_id data1 (toString_int t);
                           with_id data2 (toString_int t)])).
  { subst w2.
    destruct (onSubmit_create t t2' data2
                (final (onSubmit no_rejection None t t2 data1)
                       (initial (mkStorage (Some l) None) []))) as [-> _].
    destruct (onSubmit_create t t2 data1
                (initial (mkStorage (Some l) None) [])) as [-> _].
    cbn. by rewrite <- app_assoc. }
  unfold final.
  rewrite (handleDelete_stored _ _ w2 (toString_int_nonempty t) Hl).
  cbn [snd storage children_list].
  rewrite without_id_app, without_id_all by done.
  rewrite !without_id_hit by done. cbn. by rewrite app_nil_r.
Qed.

Lemma same_reading_profiles_deleted_together_witness :
  children_list
    (storage
       (final (handleDelete no_rejection (Some (lit "50")) Delete)
          (final (onSubmit no_rejection None 50 50 other_child)
             (final (onSubmit no_rejection None 50 50 sample_child)
                (initial one_child_store [])))))
  = Some [with_id sample_child (lit "7")].
Proof.
  apply (same_reading_profiles_deleted_together 50 50 50 sample_child
           other_child [with_id sample_child (lit "7")]).
  intros c [<-|[]]. discriminate.
Defined.

(** X9: the home screen deletes from the list it shows, not from the
    store: after [handleDeleteChild] the stored list is the shown list
    without the id, whatever was stored, so a stored record that the
    screen does not show is dropped. The revision with the web dialog
    stores and shows the same list, on every platform. *)
Theorem handleDeleteChild_overwrites_store (i name : jsstring)
    (os : HomeWeb.platform) (w : world) :
  let w' := final (handleDeleteChild no_rejection Delete i name) w in
  let w'' :=
    final (HomeWeb.handleDeleteChild no_rejection os (Some true) Delete
             i name) w in
  children_list (storage w') = Some (without_id i (children w)) /\
  (forall c, In c (default [] (children_list (storage w'))) ->
             In c (children w) /\ id c <> Some i) /\
  storage w'' = storage w' /\
  children w'' = children w'.
Proof.
  destruct w as [[l old] lib c ch cap ex tr].
  split; [by run_handler|]. split.
  - run_handler. cbn [default from_option]. intros c'.
    apply (proj1 (without_id_spec i ch)).
  - destruct os; by run_more.
Qed.

(** ** What validation lets through *)

Section Validated.

Variable accepts_infinite : bool.

Lemma coerce_number_success (checks : list check) (path : string)
    (v : value) (n : number) :
  coerce_number accepts_infinite checks path v = success n ->
  n = Number v /\ isNaN n = false /\
  (isFinite n = true \/ accepts_infinite = true) /\
  concat (map (number_check (lit path) n) checks) = [].
Proof.
  unfold coerce_number.
  destruct (isNaN (Number v)) eqn:Hnan; [done|].
  destruct (isFinite (Number v)) eqn:Hfin, accepts_infinite; cbn [negb andb
    orb]; try done;
    destruct (concat _) eqn:Hc; try done; intros [= <-];
    rewrite ?Hnan, ?Hfin; split_and!; auto.
Qed.

(** The checks look at the coerced number only. *)
Lemma coerce_number_of_Number (checks : list check) (path : string)
    (v v' : value) :
  Number v = Number v' ->
  coerce_number accepts_infinite checks path v
  = coerce_number accepts_infinite checks path v'.
Proof. unfold coerce_number. by intros ->. Qed.

Lemma Fin_between (lo hi : Z) (n : number) :
  isNaN n = false ->
  lt n (of_Z lo) = false -> lt (of_Z hi) n = false ->
  exists q, n = Fin q /\ between lo hi q.
Proof.
  destruct n as [|[]|q]; try done. intros _ Hlo Hhi. exists q.
  split; [done|]. cbn in Hlo, Hhi.
  apply negb_false_iff, Qle_bool_iff in Hlo, Hhi. by split.
Qed.

Lemma string_success (checks : list check) (path : string) (v : value)
    (s : jsstring) :
  string_ checks path v = success s ->
  v = VString s /\ concat (map (string_check (lit path) s) checks) = [].
Proof.
  destruct v as [| | | |s']; cbn; try done.
  destruct (concat _) eqn:Hc; [|done]. by intros [= <-].
Qed.

Lemma optional_string_success (checks : list check) (path : string)
    (v : value) (out : option jsstring) :
  optional (string_ checks) path v = success out ->
  (v = VUndefined /\ out = None) \/
  (exists s, v = VString s /\ out = Some s /\
             concat (map (string_check (lit path) s) checks) = []).
Proof.
  destruct v as [| | | |s']; cbn; try done.
  - intros [= <-]. by left.
  - destruct (concat _) eqn:Hc; [|done]. intros [= <-]. right. by exists s'.
Qed.

(** What a successful validation says about the raw form, field by
    field. *)
Lemma childSchema_success (raw : RawForm) (d : ChildProfile) :
  childSchema accepts_infinite raw = success d ->
  string_ [min 2 "Name must be at least 2 characters"] "fullName"
          (raw_fullName raw) = success (fullName d) /\
  coerce_number accepts_infinite
    [min 0 "Age cannot be negative"; max 18 "Must be under 18"]
    "age" (raw_age raw) = success (age d) /\
  coerce_number accepts_infinite
    [min 30 "Height (cm) seems too low"; max 250 "Height seems too high"]
    "height" (raw_height raw) = success (height d) /\
  coerce_number accepts_infinite [min 2 "Weight (kg) seems too low"]
    "weight" (raw_weight raw) = success (weight d) /\
  optional (string_ []) "gender" (raw_gender raw) = success (gender d) /\
  optional (string_ [max 300 "Notes are too long (max 300 chars)"])
    "medicalNotes" (raw_medicalNotes raw) = success (medicalNotes d) /\
  id d = None.
Proof.
  unfold childSchema.
  destruct (string_ _ "fullName" _), (coerce_number _ _ "age" _),
    (coerce_number _ _ "height" _), (coerce_number _ _ "weight" _),
    (optional _ "gender" _), (optional _ "medicalNotes" _);
    try discriminate.
  by intros [= <-].
Qed.

End Validated.

(** X10: a validated profile keeps the bounds of the schema: its name
    has at least 2 code units, its age is a number in [0,18], its height
    a number in [30,250], its weight a number that is at least 2 (or
    plus infinity, under a zod that lets infinite numbers through), its
    notes have at most 300 code units, and it has no id. Its numbers are
    the coercions of the raw fields. *)
Theorem validated_profile_in_bounds (accepts_infinite : bool)
    (raw : RawForm) (d : ChildProfile) :
  childSchema accepts_infinite raw = success d ->
  (2 <= length (fullName d))%nat /\
  (exists a, age d = Fin a /\ between 0 18 a) /\
  (exists h, height d = Fin h /\ between 30 250 h) /\
  ((exists w, weight d = Fin w /\ (2 <= w)%Q) \/
   (weight d = Infinity false /\ accepts_infinite = true)) /\
  (forall m, medicalNotes d = Some m -> (length m <= 300)%nat) /\
  id d = None /\
  age d = Number (raw_age raw) /\
  height d = Number (raw_height raw) /\
  weight d = Number (raw_weight raw).
Proof.
  intros Hd.
  pose proof (validated_name_length _ _ _ Hd) as Hname.
  destruct (childSchema_success _ _ _ Hd)
    as (_ & Ha & Hh & Hw & _ & Hm & Hid).
  apply coerce_number_success in Ha as (Ea & Na & _ & Ca).
  apply coerce_number_success in Hh as (Eh & Nh & _ & Ch).
  apply coerce_number_success in Hw as (Ew & Nw & Fw & Cw).
  split; [done|]. split; [|split; [|split; [|split]]].
  - apply Fin_between; [done|..]; cbn [map concat number_check] in Ca.
    + by destruct (lt (age d) (of_Z 0)).
    + destruct (lt (age d) (of_Z 0)); [done|].
      by destruct (lt (of_Z 18) (age d)).
  - apply Fin_between; [done|..]; cbn [map concat number_check] in Ch.
    + by destruct (lt (height d) (of_Z 30)).
    + destruct (lt (height d) (of_Z 30)); [done|].
      by destruct (lt (of_Z 250) (height d)).
  - cbn [map concat number_check] in Cw.
    destruct (lt (weight d) (of_Z 2)) eqn:Hlt; [done|].
    destruct (weight d) as [|[]|q]; try done.
    + right. split; [done|]. by destruct Fw.
    + left. exists q. split; [done|]. cbn in Hlt.
      by apply negb_false_iff, Qle_bool_iff in Hlt.
  - intros m Em. rewrite Em in Hm.
    apply optional_string_success in Hm as [[_ ?]|(s & _ & [= <-] & Cm)];
      [done|].
    cbn [map concat string_check] in Cm.
    destruct (Z.ltb_spec 300 (Z.of_nat (length m))); [done|lia].
  - done.
Qed.

Lemma validated_profile_in_bounds_witness :
  exists a, age sample_child = Fin a /\ between 0 18 a.
Proof.
  exact (proj1 (proj2 (validated_profile_in_bounds true
                         (text_form "Al" "5" "110" "18" [] [])
                         sample_child eq_refl))).
Defined.

(** ** Opening a profile in the form *)

Lemma find_first (i : jsstring) (l : list ChildProfile) (k : nat)
    (c : ChildProfile) :
  l !! k = Some c -> id c = Some i ->
  (forall j c', (j < k)%nat -> l !! j = Some c' -> id c' <> Some i) ->
  EditForm.find i l = Some c.
Proof.
  intros Hk Hc Hfirst. unfold EditForm.find.
  assert (E : list_find (fun c => id c = Some i) l = Some (k, c)).
  { apply list_find_Some. split_and!; [done..|].
    intros j c' Hj Hlt. by apply (Hfirst j c'). }
  by rewrite E.
Qed.

Lemma find_none (i : jsstring) (l : list ChildProfile) :
  (forall c, In c l -> id c <> Some i) -> EditForm.find i l = None.
Proof.
  intros H. unfold EditForm.find.
  destruct (list_find _ l) as [[k c]|] eqn:E; [|done].
  apply list_find_Some in E as (Hk & Hc & _).
  apply list_elem_of_lookup_2, list_elem_of_In in Hk. by destruct (H c Hk).
Qed.

(** X11: [loadChildForEdit] only reads: whatever calls reject, the store
    and the list of the home screen are as before and no write is
    attempted. It looks in the stored list only: when no list is
    stored, the form is not filled, also when a legacy record is
    stored, and the legacy record is not migrated. *)
Theorem loadChildForEdit_only_reads (rejects : op -> bool) (i : jsstring)
    (w : world) :
  let w' := final (EditForm.loadChildForEdit rejects i) w in
  storage w' = storage w /\
  children w' = children w /\
  forallb (fun e => negb (storage_write e)) (new_events w w') = true /\
  (children_list (storage w) = None ->
   result (EditForm.loadChildForEdit rejects i) w = Returned None).
Proof.
  destruct w as [[l old] lib c ch cap ex tr].
  destruct l; run_with rejects; decide_lookups;
    rewrite <- ?app_assoc, ?new_events_mkWorld; by split_and!.
Qed.

Lemma loadChildForEdit_only_reads_witness :
  result (EditForm.loadChildForEdit no_rejection (lit "7"))
         (initial legacy_store [])
  = Returned None.
Proof.
  exact (proj2 (proj2 (proj2
           (loadChildForEdit_only_reads no_rejection (lit "7")
              (initial legacy_store [])))) eq_refl).
Defined.

(** The form is filled from the first stored record with the id. *)
Lemma loadChildForEdit_found (i : jsstring) (l : list ChildProfile)
    (k : nat) (c : ChildProfile) (w : world) :
  children_list (storage w) = Some l ->
  l !! k = Some c -> id c = Some i ->
  (forall j c', (j < k)%nat -> l !! j = Some c' -> id c' <> Some i) ->
  result (EditForm.loadChildForEdit no_rejection i) w
  = Returned (Some (EditForm.reset_values c)).
Proof.
  destruct w as [[l' old] lib c0 ch cap ex tr]. cbn [storage children_list].
  intros -> Hk Hc Hfirst. run_more.
  by rewrite (find_first i l k c Hk Hc Hfirst).
Qed.

(** The numbers of a validated profile: age and height are finite, the
    weight is finite or, when the schema lets it through, infinite. *)
Lemma validated_numbers (accepts_infinite : bool) (raw : RawForm)
    (d : ChildProfile) :
  childSchema accepts_infinite raw = success d ->
  isFinite (age d) = true /\ isFinite (height d) = true /\
  (isFinite (weight d) = true \/
   (weight d = Infinity false /\ accepts_infinite = true)).
Proof.
  intros Hd.
  destruct (childSchema_success _ _ _ Hd) as (_ & Ha & Hh & Hw & _).
  apply coerce_number_success in Ha as (_ & Na & _ & Ca).
  apply coerce_number_success in Hh as (_ & Nh & _ & Ch).
  apply coerce_number_success in Hw as (_ & Nw & Fw & Cw).
  cbn [map concat number_check] in Ca, Ch, Cw.
  split_and!.
  - by destruct (age d) as [|[]|q].
  - by destruct (height d) as [|[]|q].
  - destruct (weight d) as [|[]|q]; try done; [|by left].
    right. split; [done|]. by destruct Fw.
Qed.

Section Reload.

Variable accepts_infinite : bool.

(** The values that the form is filled with from a stored, validated
    profile validate again, when its weight is finite. *)
Lemma reset_values_validate (raw : RawForm) (d : ChildProfile)
    (i : jsstring) :
  childSchema accepts_infinite raw = success d ->
  isFinite (weight d) = true ->
  childSchema accepts_infinite (EditForm.reset_values (with_id d i))
  = success (with_text_defaults d).
Proof.
  intros Hd Fw.
  destruct (validated_numbers _ _ _ Hd) as (Fa & Fh & _).
  destruct (childSchema_success _ _ _ Hd)
    as (Hn & Ha & Hh & Hw & _ & Hm & _).
  apply string_success in Hn as [_ Cn].
  apply optional_string_success in Hm.
  unfold childSchema, EditForm.reset_values, with_text_defaults,
    parsed_number.
  cbn [raw_fullName raw_age raw_height raw_weight raw_gender raw_medicalNotes
       with_id fullName age height weight gender medicalNotes].
  rewrite Fa, Fh, Fw.
  pose proof (validated_name_length _ _ _ Hd) as Hlen.
  replace (or_else (fullName d) []) with (fullName d)
    by (by destruct (fullName d)).
  rewrite string_min_ok by lia.
  rewrite (coerce_number_of_Number _ _ "age" (VNumber (age d)) (raw_age raw))
    by (by apply coerce_number_success in Ha as [-> _]).
  rewrite (coerce_number_of_Number _ _ "height" (VNumber (height d))
             (raw_height raw))
    by (by apply coerce_number_success in Hh as [-> _]).
  rewrite (coerce_number_of_Number _ _ "weight" (VNumber (weight d))
             (raw_weight raw))
    by (by apply coerce_number_success in Hw as [-> _]).
  rewrite Ha, Hh, Hw.
  assert (Hnotes : (length (string_or (medicalNotes d) []) <= 300)%nat).
  { destruct Hm as [[_ ->]|(s & _ & -> & Cm)]; [cbn; lia|].
    cbn [map concat string_check] in Cm.
    destruct (Z.ltb_spec 300 (Z.of_nat (length s))); [done|].
    destruct s; cbn in *; lia. }
  rewrite (optional_string_ok None EmptyString "gender" _
             (Some (string_or (gender d) []))) by done.
  by rewrite (optional_string_ok (Some 300%nat)
                "Notes are too long (max 300 chars)" "medicalNotes" _
                (Some (string_or (medicalNotes d) []))).
Qed.

(** X12: a validated profile with a finite weight, stored and loaded
    back into the form, validates again, to the same name and numbers;
    a missing gender and missing notes come back as empty text, and
    loading and validating once more changes nothing further. A
    validated profile with an infinite weight does not validate again:
    its weight was stored as [null], which is read as 0 and is too
    low. *)
Theorem reloaded_profile_validates (raw : RawForm) (d : ChildProfile)
    (i : jsstring) :
  childSchema accepts_infinite raw = success d ->
  let d' := with_text_defaults d in
  (isFinite (weight d) = true ->
   childSchema accepts_infinite (EditForm.reset_values (with_id d i))
   = success d' /\
   childSchema accepts_infinite (EditForm.reset_values (with_id d' i))
   = success d' /\
   fullName d' = fullName d /\ age d' = age d /\ height d' = height d /\
   weight d' = weight d /\
   gender d' = Some (string_or (gender d) []) /\
   medicalNotes d' = Some (string_or (medicalNotes d) [])) /\
  (isFinite (weight d) = false ->
   rejected_for "weight"
     (childSchema accepts_infinite
        (EditForm.reset_values (with_id d i)))).
Proof.
  intros Hd d'. split.
  - intros Fw.
    pose proof (reset_values_validate raw d i Hd Fw) as H1.
    pose proof (reset_values_validate _ (with_text_defaults d) i H1 Fw)
      as H2.
    split; [done|]. split; [|done].
    subst d'. rewrite H2. unfold with_text_defaults. cbn.
    by destruct (gender d) as [[|??]|], (medicalNotes d) as [[|??]|].
  - intros Fw.
    destruct (validated_numbers _ _ _ Hd) as (_ & _ & [Fw'|[Ew _]]);
      [congruence|].
    apply (childSchema_rejects_weight accepts_infinite _ 0); [|done].
    unfold EditForm.reset_values, parsed_number.
    cbn [raw_weight with_id weight]. by rewrite Ew.
Qed.

End Reload.

Lemma reloaded_profile_validates_witness :
  childSchema true (EditForm.reset_values (with_id other_child (lit "3")))
  = success (mkChild (lit "Bea") (Fin 7) (Fin 125) (Fin 24)
                     (Some (lit "F")) (Some []) None) /\
  rejected_for "weight"
    (childSchema true
       (EditForm.reset_values
          (with_id (mkChild (lit "Bea") (Fin 7) (Fin 125) (Infinity false)
                            (Some (lit "F")) None None) (lit "3")))).
Proof.
  split.
  - exact (proj1 (proj1 (reloaded_profile_validates true
                    (mkRaw (VString (lit "Bea")) (VString (lit "7"))
                           (VString (lit "125")) (VString (lit "24"))
                           (VString (lit "F")) VUndefined)
                    other_child (lit "3") eq_refl) eq_refl)).
  - exact (proj2 (reloaded_profile_validates true
                    (mkRaw (VString (lit "Bea")) (VString (lit "7"))
                           (VString (lit "125")) (VString (lit "Infinity"))
                           (VString (lit "F")) VUndefined)
                    (mkChild (lit "Bea") (Fin 7) (Fin 125) (Infinity false)
                             (Some (lit "F")) None None)
                    (lit "3") eq_refl) eq_refl).
Defined.

(** X13: opening a stored, validated profile and saving the form as it
    was filled puts the same profile back in its place, under its id:
    the name and the numbers are unchanged, a missing gender and
    missing notes have become empty text, every other record is as it
    was. *)
Theorem open_and_save (accepts_infinite : bool) (raw : RawForm)
    (d : ChildProfile) (i : jsstring) (l : list ChildProfile) (k : nat)
    (t1 t2 : N) (w : world) :
  i <> [] ->
  childSchema accepts_infinite raw = success d ->
  json_faithful d = true ->
  children_list (storage w) = Some l ->
  l !! k = Some (with_id d i) ->
  (forall j c', (j < k)%nat -> l !! j = Some c' -> id c' <> Some i) ->
  exists values d',
    result (EditForm.on_open no_rejection (Some i)) w
    = Returned (Some values) /\
    childSchema accepts_infinite values = success d' /\
    d' = with_text_defaults d /\
    storage (final (onSubmit no_rejection (Some i) t1 t2 d') w)
    = mkStorage (Some (<[k := with_id d' i]> l))
                (child_profile (storage w)).
Proof.
  intros Hi Hd Hj Hl Hk Hfirst.
  assert (Fw : isFinite (weight d) = true).
  { unfold json_faithful in Hj. by apply andb_true_iff in Hj as [_ ?]. }
  exists (EditForm.reset_values (with_id d i)), (with_text_defaults d).
  split_and!.
  - unfold EditForm.on_open.
    rewrite (proj1 (edit_target_truthy i Hi)).
    by apply (loadChildForEdit_found i l k).
  - by apply reset_values_validate with raw.
  - done.
  - unfold final.
    rewrite (onSubmit_update_found i t1 t2 _ w k Hi).
    + cbn [snd storage]. by rewrite Hl.
    + rewrite Hl. by apply (findIndex_Some i l k (with_id d i)).
Qed.

Lemma open_and_save_witness :
  exists values d',
    result (EditForm.on_open no_rejection (Some (lit "7")))
           (initial one_child_store [])
    = Returned (Some values) /\
    childSchema true values = success d' /\
    d' = with_text_defaults sample_child /\
    storage (final (onSubmit no_rejection (Some (lit "7")) 1 2 d')
                   (initial one_child_store []))
    = mkStorage (Some (<[0%nat := with_id d' (lit "7")]>
                         [with_id sample_child (lit "7")])) None.
Proof.
  refine (open_and_save true (text_form "Al" "5" "110" "18" [] [])
            sample_child (lit "7") [with_id sample_child (lit "7")] 0%nat
            1 2 (initial one_child_store []) _ eq_refl eq_refl eq_refl
            eq_refl _).
  - discriminate.
  - intros j c' Hj. inversion Hj.
Defined.

(** X14: a profile that was just added can be opened and updated under
    the id it was given, as long as no stored record had that id
    before: the form is filled from the new record, and an update
    replaces the new record, behind the old ones. (The numbers of the
    profiles are finite, so that the store gives them back.) *)
Theorem created_profile_opens (t1 t2 t3 t4 : N) (data data' : ChildProfile)
    (w : world) :
  let l := default [] (children_list (storage w)) in
  let i := toString_int t1 in
  let w1 := final (onSubmit no_rejection None t1 t2 data) w in
  child_profile (storage w) = None ->
  (forall c, In c l -> id c <> Some i) ->
  json_faithful data = true -> json_faithful data' = true ->
  result (EditForm.on_open no_rejection (Some i)) w1
  = Returned (Some (EditForm.reset_values (with_id data i))) /\
  storage (final (onSubmit no_rejection (Some i) t3 t4 data') w1)
  = mkStorage (Some (l ++ [with_id data' i])) None.
Proof.
  intros l i w1 Hold Hfresh _ _.
  assert (Hl1 : children_list (storage w1) = Some (l ++ [with_id data i])).
  { subst w1. destruct (onSubmit_create t1 t2 data w) as [-> _].
    by rewrite Hold. }
  assert (Hold1 : child_profile (storage w1) = None).
  { subst w1. by destruct (onSubmit_create t1 t2 data w) as [-> _]. }
  assert (Hk : (l ++ [with_id data i]) !! length l = Some (with_id data i)).
  { by rewrite lookup_app_r, Nat.sub_diag. }
  assert (Hfirst : forall j c', (j < length l)%nat ->
            (l ++ [with_id data i]) !! j = Some c' -> id c' <> Some i).
  { intros j c' Hj Hc'. rewrite lookup_app_l in Hc' by done.
    apply Hfresh. apply list_elem_of_In. by eapply list_elem_of_lookup_2. }
  split.
  - unfold EditForm.on_open. subst i. rewrite edit_target_generated.
    by apply (loadChildForEdit_found _ _ (length l) _ w1 Hl1 Hk).
  - unfold final.
    rewrite (onSubmit_update_found i t3 t4 data' w1 (length l)
               (toString_int_nonempty t1)).
    + cbn [snd storage]. rewrite Hl1, Hold1. cbn [default from_option].
      f_equal. f_equal. unfold Datatypes.id.
      rewrite insert_app_r_alt, Nat.sub_diag by done. done.
    + rewrite Hl1. by apply (findIndex_Some _ _ _ (with_id data i)).
Qed.

Lemma created_profile_opens_witness :
  storage (final (onSubmit no_rejection (Some (lit "20")) 30 40 sample_child)
                 (final (onSubmit no_rejection None 20 25 other_child)
                        (initial one_child_store [])))
  = mkStorage (Some [with_id sample_child (lit "7");
                     with_id sample_child (lit "20")]) None.
Proof.
  refine (proj2 (created_profile_opens 20 25 30 40 other_child sample_child
                   (initial one_child_store []) eq_refl _ eq_refl eq_refl)).
  intros c [<-|[]]. discriminate.
Defined.

(** ** The list on the home screen and the stored list *)

(** X15: after [loadChildren], in a run without rejections, the home
    screen shows the stored list, whatever was stored and shown before;
    deleting a profile on the home screen then removes the records with
    its id from the stored list, and the screen still shows the stored
    list. *)
Theorem home_screen_shows_store (now : N) (i name : jsstring) (w : world) :
  let w1 := final (loadChildren no_rejection now) w in
  let w2 := final (handleDeleteChild no_rejection Delete i name) w1 in
  children w1 = default [] (children_list (storage w1)) /\
  children_list (storage w2)
  = Some (without_id i (default [] (children_list (storage w1)))) /\
  children w2 = default [] (children_list (storage w2)).
Proof.
  intros w1 w2.
  assert (H1 : children w1 = default [] (children_list (storage w1))).
  { subst w1. unfold final.
    destruct (children_list (storage w)) as [l|] eqn:Hl.
    - rewrite (loadChildren_reads_list l now w Hl). cbn. by rewrite Hl.
    - destruct (child_profile (storage w)) as [legacy|] eqn:Hold.
      + by rewrite (loadChildren_migrates legacy now w Hl Hold).
      + destruct w as [[l old] lib c ch cap ex tr]. cbn in Hl, Hold.
        subst. by run_handler. }
  split; [done|]. subst w2. unfold final.
  rewrite (handleDeleteChild_filters i name w1). cbn. by rewrite H1.
Qed.

(** ** Export names that are kept, and names that collide *)

Lemma in_class_not_space (c : N) : in_class c = true -> isWhiteSpace c = false.
Proof.
  unfold in_class, isWhiteSpace. intros H.
  repeat match goal with
  | |- context [N.eqb c ?k] => destruct (N.eqb_spec c k); [subst; done|]
  end.
  destruct (N.leb_spec 8192 c); [|done].
  cbn [orb andb]. rewrite orb_false_r.
  repeat match type of H with
  | context [N.leb ?a ?b] => destruct (N.leb_spec a b)
  | context [N.eqb ?a ?b] => destruct (N.eqb_spec a b)
  end; cbn in H; try done; lia.
Qed.

Lemma trimStart_keeps (s : jsstring) :
  (forall c, head s = Some c -> isWhiteSpace c = false) -> trimStart s = s.
Proof.
  destruct s as [|c s]; [done|]. intros H. cbn. by rewrite (H c eq_refl).
Qed.

Lemma trim_keeps (s : jsstring) :
  (forall c, head s = Some c -> isWhiteSpace c = false) ->
  (forall c, last s = Some c -> isWhiteSpace c = false) ->
  trim s = s.
Proof.
  intros Hh Hl. unfold trim, trimEnd. rewrite (trimStart_keeps s Hh).
  rewrite trimStart_keeps; [apply rev_involutive|].
  intros c Hc. apply Hl. by rewrite <- last_rev, rev_involutive in Hc.
Qed.

Lemma trim_in_class (s : jsstring) :
  Forall (fun c => in_class c = true) s -> trim s = s.
Proof.
  intros H. rewrite List.Forall_forall in H.
  apply trim_keeps; intros c Hc; apply in_class_not_space, H.
  - destruct s; [done|]. injection Hc as ->. by left.
  - apply list_elem_of_In. by eapply last_Some_elem_of.
Qed.

Lemma replace_scan_keeps (s : jsstring) :
  Forall (fun c => in_class c = true) s -> replace_scan false s = s.
Proof.
  induction 1 as [|c s Hc _ IH]; [done|]. cbn. by rewrite Hc, IH.
Qed.

(** A run of code units outside the class, however long, leaves one
    underscore, or nothing when the run was already replaced. *)
Lemma replace_scan_offending (b : bool) (s : jsstring) :
  Forall (fun c => in_class c = false) s ->
  replace_scan b s
  = if b then [] else match s with [] => [] | _ => [underscore] end.
Proof.
  intros H. revert b. induction H as [|c s Hc _ IH]; intros b; [by destruct b|].
  cbn. rewrite Hc, IH. by destruct b.
Qed.

(** What [sanitizeForFileSystem] returns is a name it keeps. *)
Lemma sanitizeForFileSystem_valid (value : jsstring) :
  sanitizeForFileSystem value <> [] /\
  (length (sanitizeForFileSystem value) <= 40)%nat /\
  Forall (fun c => in_class c = true) (sanitizeForFileSystem value).
Proof.
  unfold sanitizeForFileSystem, slice0.
  destruct (replace_offending (trim value)) as [|c clean] eqn:E.
  - cbn. split_and!; [done|vm_compute; lia|by vm_compute; repeat constructor].
  - cbn [length Nat.ltb Nat.leb]. split_and!.
    + done.
    + rewrite length_take. lia.
    + apply Forall_take. rewrite <- E. apply replace_scan_in_class.
Qed.

Lemma sanitizeForFileSystem_keeps (s : jsstring) :
  s <> [] -> (length s <= 40)%nat ->
  Forall (fun c => in_class c = true) s ->
  sanitizeForFileSystem s = s.
Proof.
  intros Hs Hlen Hc. unfold sanitizeForFileSystem, replace_offending, slice0.
  rewrite (trim_in_class s Hc), (replace_scan_keeps s Hc).
  destruct s; [done|]. cbn [length Nat.ltb Nat.leb].
  by rewrite take_ge.
Qed.

(** X16: the names that [sanitizeForFileSystem] returns unchanged are
    exactly the non-empty names of at most 40 code units within
    [A-Za-z0-9-_]. *)
Theorem sanitizeForFileSystem_fixed_points (s : jsstring) :
  sanitizeForFileSystem s = s <->
  s <> [] /\ (length s <= 40)%nat /\ Forall (fun c => in_class c = true) s.
Proof.
  split.
  - intros <-. apply sanitizeForFileSystem_valid.
  - intros (Hs & Hlen & Hc). by apply sanitizeForFileSystem_keeps.
Qed.

(** X17: an export name is never empty, and it is a name of its own:
    sanitising it again changes nothing. *)
Theorem sanitizeForFileSystem_idempotent (value : jsstring) :
  sanitizeForFileSystem value <> [] /\
  sanitizeForFileSystem (sanitizeForFileSystem value)
  = sanitizeForFileSystem value.
Proof.
  destruct (sanitizeForFileSystem_valid value) as (Hs & Hlen & Hc).
  split; [done|]. by apply sanitizeForFileSystem_keeps.
Qed.

(** X18: a name that has, between its surrounding white space, no code
    unit within [A-Za-z0-9-_] at all (a name written in another script,
    say) gets the export name [_], whatever the name is. *)
Theorem sanitizeForFileSystem_other_scripts (value : jsstring) :
  trim value <> [] ->
  Forall (fun c => in_class c = false) (trim value) ->
  sanitizeForFileSystem value = [underscore].
Proof.
  intros Hne Hoff. unfold sanitizeForFileSystem, replace_offending.
  rewrite (replace_scan_offending false _ Hoff).
  by destruct (trim value).
Qed.

Lemma sanitizeForFileSystem_other_scripts_witness :
  sanitizeForFileSystem [29579; 23567; 26126] = lit "_" /\
  sanitizeForFileSystem [1040; 1085; 1085; 1072] = lit "_".
Proof.
  split.
  - refine (sanitizeForFileSystem_other_scripts [29579; 23567; 26126] _ _).
    + discriminate.
    + vm_compute. by repeat constructor.
  - refine (sanitizeForFileSystem_other_scripts [1040; 1085; 1085; 1072] _ _).
    + discriminate.
    + vm_compute. by repeat constructor.
Defined.

Lemma sanitizeForFileSystem_fixed_points_witness :
  sanitizeForFileSystem (lit "Ann_Lee-2") = lit "Ann_Lee-2".
Proof.
  refine (proj2 (sanitizeForFileSystem_fixed_points (lit "Ann_Lee-2")) _).
  split; [discriminate|]. split; [vm_compute; lia|].
  vm_compute. by repeat constructor.
Defined.

(** ** Export with the permission granted *)

Lemma find_album_cons (name : jsstring) (a : jsstring * list file)
    (l : list (jsstring * list file)) :
  find_album name (a :: l)
  = if decide (fst a = name) then Some a else find_album name l.
Proof.
  unfold find_album. cbn [list_find].
  destruct (decide (fst a = name)); [done|].
  by destruct (list_find _ l) as [[k b]|].
Qed.

Lemma find_album_name (name : jsstring) (l : list (jsstring * list file))
    (a : jsstring * list file) :
  find_album name l = Some a -> fst a = name.
Proof.
  induction l as [|b l IH]; [done|]. rewrite find_album_cons.
  destruct (decide (fst b = name)); [by intros [= <-]|done].
Qed.

Lemma find_album_new (name name' : jsstring) (fs : list file)
    (l : list (jsstring * list file)) :
  find_album name l = None ->
  find_album name' (l ++ [(name, fs)])
  = if decide (name' = name) then Some (name, fs) else find_album name' l.
Proof.
  induction l as [|b l IH]; intros Hnone.
  - cbn [app]. rewrite find_album_cons. cbn [fst].
    destruct (decide (name = name')), (decide (name' = name)); done.
  - rewrite find_album_cons in Hnone.
    destruct (decide (fst b = name)) as [|Hb]; [done|].
    cbn [app]. rewrite !find_album_cons, (IH Hnone).
    destruct (decide (fst b = name')), (decide (name' = name)); congruence.
Qed.

Lemma find_album_added (name name' : jsstring) (f : file)
    (l : list (jsstring * list file)) :
  find_album name' (add_to_album name f <$> l)
  = add_to_album name f <$> find_album name' l.
Proof.
  induction l as [|b l IH]; [done|].
  cbn [fmap list_fmap]. rewrite !find_album_cons.
  assert (E : fst (add_to_album name f b) = fst b).
  { unfold add_to_album. by destruct (decide (fst b = name)). }
  rewrite E. destruct (decide (fst b = name')); [done|]. apply IH.
Qed.

(** The library after an export of the revision with [useRef] in which
    the card is mounted, the permission granted and every call
    succeeded. *)
Lemma export_granted (numberToString : number -> jsstring)
    (data : ChildProfile) (w : world) :
  let m := PdfScreen.exportPdfAndImage numberToString no_rejection true
             granted data in
  let png := png_file (Some data) in
  library (final m w)
  = mkLibrary (assets (library w) ++ [png])
      (match find_album (album_of data) (albums (library w)) with
       | None => albums (library w) ++ [(album_of data, [png])]
       | Some a => add_to_album (fst a) png <$> albums (library w)
       end) /\
  last (new_events w (final m w)) = Some (saved_alert data) /\
  cache (final m w)
  = cache w ++ [pdf_file (buildPdfHtml numberToString (as_pdf_data data));
                png].
Proof.
  destruct w as [s [files albs] c ch cap ex tr].
  unfold album_of, saved_alert.
  run_handler; destruct (find_album _ albs); run_handler;
    rewrite <- ?app_assoc, ?new_events_mkWorld;
    (split; [done|]); (split; [|done]); by rewrite ?last_app, ?last_snoc.
Qed.

Lemma export_granted_album (numberToString : number -> jsstring)
    (data : ChildProfile) (w : world) :
  let m := PdfScreen.exportPdfAndImage numberToString no_rejection true
             granted data in
  let png := png_file (Some data) in
  assets (library (final m w)) = assets (library w) ++ [png] /\
  find_album (album_of data) (albums (library (final m w)))
  = Some (album_of data, album_files (album_of data) (library w) ++ [png]) /\
  (forall name, name <> album_of data ->
     find_album name (albums (library (final m w)))
     = find_album name (albums (library w))).
Proof.
  intros m png. subst m.
  destruct (export_granted numberToString data w) as [-> _].
  cbn [assets albums]. split; [done|]. unfold album_files.
  destruct (find_album (album_of data) (albums (library w))) as [a|] eqn:Ha.
  - pose proof (find_album_name _ _ _ Ha) as Hname.
    split.
    + rewrite find_album_added, Ha. cbn. unfold add_to_album.
      rewrite Hname. by rewrite decide_True.
    + intros name Hne. rewrite find_album_added.
      destruct (find_album name (albums (library w))) as [b|] eqn:Hb; [|done].
      cbn. unfold add_to_album. rewrite Hname.
      rewrite decide_False; [done|].
      by rewrite (find_album_name _ _ _ Hb).
  - split.
    + rewrite (find_album_new _ _ _ _ Ha). by rewrite decide_True.
    + intros name Hne. rewrite (find_album_new _ _ _ _ Ha).
      by rewrite decide_False.
Qed.

(** X19: in the revision that keeps the ref of the card by [useRef], an
    export with the card mounted, the permission granted and every call
    succeeding adds one file to the photo library, the snapshot of the
    card of the submitted profile (whatever the card showed before),
    puts it last in the album named after the sanitised name, which is
    created when it is not there, leaves every other album as it was,
    and ends by telling the user the album. The printed document stays
    in the cache: it is not added to the library. The export of
    add_child.tsx, whose ref is made by [React.createRef()], saves
    nothing in the same run. *)
Theorem export_saves_snapshot (numberToString : number -> jsstring)
    (data : ChildProfile) (w : world) :
  let m := PdfScreen.exportPdfAndImage numberToString no_rejection true
             granted data in
  let m' := Renderer.exportPdfAndImage no_rejection true granted data in
  let png := png_file (Some data) in
  let name := album_of data in
  assets (library (final m w)) = assets (library w) ++ [png] /\
  find_album name (albums (library (final m w)))
  = Some (name, album_files name (library w) ++ [png]) /\
  (forall other, other <> name ->
     find_album other (albums (library (final m w)))
     = find_album other (albums (library w))) /\
  last (new_events w (final m w)) = Some (saved_alert data) /\
  cache (final m w)
  = cache w ++ [pdf_file (buildPdfHtml numberToString (as_pdf_data data));
                png] /\
  library (final m' w) = library w /\
  cache (final m' w) = cache w /\
  new_events w (final m' w) = [export_error_alert].
Proof.
  intros m m' png name.
  destruct (export_granted numberToString data w) as (_ & Hlast & Hcache).
  destruct (export_granted_album numberToString data w)
    as (Hassets & Halbum & Hothers).
  split_and!; try done;
    subst m'; destruct w as [s lib c ch cap ex tr]; run_handler;
    by rewrite ?new_events_mkWorld.
Qed.

Lemma export_saves_snapshot_witness :
  find_album (lit "ChildGuardID - Bea")
    (albums (library
       (final (PdfScreen.exportPdfAndImage (fun _ => []) no_rejection true
                 granted ann_lee)
          (final (PdfScreen.exportPdfAndImage (fun _ => []) no_rejection true
                    granted other_child) fresh_world))))
  = Some (lit "ChildGuardID - Bea", [png_file (Some other_child)]).
Proof.
  refine (eq_trans
            (proj1 (proj2 (proj2
               (export_saves_snapshot (fun _ => []) ann_lee
                  (final (PdfScreen.exportPdfAndImage (fun _ => [])
                            no_rejection true granted other_child)
                         fresh_world))))
               (lit "ChildGuardID - Bea") _) eq_refl).
  discriminate.
Defined.

(** X20: in the revision that keeps the ref by [useRef], two profiles
    whose names are sanitised to the same export name share one album:
    after the export of one and then the other, the album holds the
    snapshots of both, in that order, behind what it held before. *)
Theorem same_export_name_shares_album (numberToString : number -> jsstring)
    (data1 data2 : ChildProfile) (w : world) :
  sanitizeForFileSystem (fullName data1)
  = sanitizeForFileSystem (fullName data2) ->
  let export d :=
    PdfScreen.exportPdfAndImage numberToString no_rejection true granted d in
  let w2 := final (export data2) (final (export data1) w) in
  album_of data1 = album_of data2 /\
  find_album (album_of data1) (albums (library w2))
  = Some (album_of data1,
          album_files (album_of data1) (library w)
          ++ [png_file (Some data1); png_file (Some data2)]) /\
  assets (library w2)
  = assets (library w) ++ [png_file (Some data1); png_file (Some data2)].
Proof.
  intros Hname export w2.
  assert (E : album_of data1 = album_of data2)
    by (unfold album_of; by rewrite Hname).
  destruct (export_granted_album numberToString data1 w) as (Ha1 & Hf1 & _).
  destruct (export_granted_album numberToString data2
              (final (export data1) w)) as (Ha2 & Hf2 & _).
  split; [done|]. subst w2 export. split.
  - rewrite E, Hf2. unfold album_files at 1. rewrite <- E, Hf1. cbn.
    by rewrite <- app_assoc.
  - rewrite Ha2, Ha1. by rewrite <- app_assoc.
Qed.

Lemma same_export_name_shares_album_witness :
  find_album (lit "ChildGuardID - Ann_Lee")
    (albums (library
       (final (PdfScreen.exportPdfAndImage (fun _ => []) no_rejection true
                 granted ann_lee')
          (final (PdfScreen.exportPdfAndImage (fun _ => []) no_rejection true
                    granted ann_lee) fresh_world))))
  = Some (lit "ChildGuardID - Ann_Lee",
          [png_file (Some ann_lee); png_file (Some ann_lee')]).
Proof.
  exact (proj1 (proj2 (same_export_name_shares_album (fun _ => []) ann_lee
                         ann_lee' fresh_world eq_refl))).
Defined.

(** ** Export, whatever happens *)

(** X21: whatever calls reject and whatever the user answers, an export
    leaves the stored profiles and the list of the home screen alone and
    writes nothing to the storage; it adds nothing to the photo library
    or just the snapshot of the submitted profile, never the printed
    document; what was in the cache stays there; the card is left
    showing the submitted profile and the export flag is cleared. *)
Theorem export_frame (numberToString : number -> jsstring)
    (rejects : op -> bool) (mounted : bool) (answer : PermissionStatus)
    (data : ChildProfile) (w : world) (m : M unit) :
  m = Renderer.exportPdfAndImage rejects mounted answer data \/
  m = PdfScreen.exportPdfAndImage numberToString rejects mounted answer
        data ->
  let w' := final m w in
  storage w' = storage w /\
  children w' = children w /\
  forallb (fun e => negb (storage_write e)) (new_events w w') = true /\
  (assets (library w') = assets (library w) \/
   assets (library w') = assets (library w) ++ [png_file (Some data)]) /\
  (exists written, cache w' = cache w ++ written) /\
  captureData w' = Some data /\
  isExporting w' = false.
Proof.
  intros Hm. destruct w as [s lib c ch cap ex tr].
  destruct Hm as [-> | ->]; destruct mounted, answer;
    run_handler; decide_calls rejects; run_handler;
    rewrite <- ?app_assoc, ?new_events_mkWorld;
    (split_and!;
     [done|done|done|auto
     |first [by exists []; rewrite app_nil_r|by eexists]|done|done]).
Qed.

Lemma export_frame_witness :
  storage (final (Renderer.exportPdfAndImage album_creation_rejects true
                    granted sample_child) (initial one_child_store []))
  = one_child_store /\
  isExporting (final (PdfScreen.exportPdfAndImage (fun _ => [])
                        album_creation_rejects true granted sample_child)
                 (initial one_child_store []))
  = false.
Proof.
  split.
  - refine (proj1 (export_frame (fun _ => []) album_creation_rejects true
                     granted sample_child (initial one_child_store []) _
                     (or_introl eq_refl))).
  - refine (proj2 (proj2 (proj2 (proj2 (proj2 (proj2
              (export_frame (fun _ => []) album_creation_rejects true
                 granted sample_child (initial one_child_store []) _
                 (or_intror eq_refl)))))))).
Defined.

(** X22: when the running handler finds no card behind its ref, the
    export stops before the snapshot: no snapshot is taken, no
    permission is asked, the photo library is as before, and the user is
    told that the export failed. In add_child.tsx, whose ref is made by
    [React.createRef()], this is every export, whether the card is
    mounted or not, and nothing is written to the cache either. In the
    revision with [useRef] it is the export with the card not mounted,
    and the document has been printed by then. *)
Theorem export_view_not_ready (numberToString : number -> jsstring)
    (rejects : op -> bool) (mounted : bool) (answer : PermissionStatus)
    (data : ChildProfile) (w : world) :
  let m := Renderer.exportPdfAndImage rejects mounted answer data in
  let m' := PdfScreen.exportPdfAndImage numberToString rejects false answer
              data in
  (new_events w (final m w) = [export_error_alert] /\
   library (final m w) = library w /\ cache (final m w) = cache w) /\
  new_events w (final m' w)
  = [called printToFileAsync; export_error_alert] /\
  library (final m' w) = library w /\
  cache (final m' w)
  = (if rejects printToFileAsync then cache w
     else cache w ++
          [pdf_file (buildPdfHtml numberToString (as_pdf_data data))]).
Proof.
  destruct w as [s lib c ch cap ex tr]. unfold export_error_alert.
  destruct mounted; run_handler; decide_calls rejects;
    rewrite <- ?app_assoc, ?new_events_mkWorld; by split_and!.
Qed.

(** X23: in the revision that keeps the ref by [useRef], when the
    snapshot was added to the photo library and the album step rejects
    (the look-up of the album, or the creation of the album when there
    is none, or the addition to the album there is), the user is told
    that the export failed, and not that the image was saved, while the
    snapshot stays in the library and the albums are as before. *)
Theorem export_album_failure_keeps_asset
    (numberToString : number -> jsstring) (rejects : op -> bool)
    (data : ChildProfile) (w : world) :
  let m := PdfScreen.exportPdfAndImage numberToString rejects true granted
             data in
  rejects printToFileAsync = false -> rejects captureRef = false ->
  rejects requestPermissionsAsync = false ->
  rejects createAssetAsync = false ->
  rejects getAlbumAsync = true \/
  rejects (match find_album (album_of data) (albums (library w)) with
           | None => createAlbumAsync
           | Some _ => addAssetsToAlbumAsync
           end) = true ->
  library (final m w)
  = mkLibrary (assets (library w) ++ [png_file (Some data)])
              (albums (library w)) /\
  last (new_events w (final m w)) = Some export_error_alert /\
  ~ In (saved_alert data) (new_events w (final m w)).
Proof.
  intros m Hprint Hshot Hperm Hasset Halbum. subst m.
  destruct w as [s [files albs] c ch cap ex tr].
  unfold export_error_alert, saved_alert, album_of in *.
  cbn [library albums] in Halbum.
  run_handler;
    rewrite ?Hprint, ?Hshot, ?Hperm, ?Hasset;
    (destruct Halbum as [Hget | Hput];
     [rewrite Hget
     |destruct (rejects getAlbumAsync);
      [|destruct (find_album _ albs); rewrite Hput]]);
    run_handler; rewrite <- ?app_assoc, ?new_events_mkWorld;
    (split; [done|]); (split; [done|]);
    cbn [In]; intros Hin; repeat destruct Hin as [Hin|Hin]; done.
Qed.

Lemma export_album_failure_keeps_asset_witness :
  library (final (PdfScreen.exportPdfAndImage (fun _ => [])
                    album_creation_rejects true granted sample_child)
                 fresh_world)
  = mkLibrary [png_file (Some sample_child)] [].
Proof.
  refine (proj1 (export_album_failure_keeps_asset (fun _ => [])
                   album_creation_rejects sample_child fresh_world
                   eq_refl eq_refl eq_refl eq_refl _)).
  by right.
Defined.

(** ** White space in the numeric fields *)

Lemma trimStart_space (l s : jsstring) :
  Forall (fun c => isWhiteSpace c = true) l -> trimStart (l ++ s) = trimStart s.
Proof. induction 1 as [|c l Hc _ IH]; [done|]. cbn. by rewrite Hc. Qed.

Lemma trimEnd_space (s r : jsstring) :
  Forall (fun c => isWhiteSpace c = true) r -> trimEnd (s ++ r) = trimEnd s.
Proof.
  intros Hr. unfold trimEnd. rewrite rev_app_distr.
  rewrite trimStart_space; [done|]. by apply Forall_rev.
Qed.

Lemma trim_space (l s r : jsstring) :
  Forall (fun c => isWhiteSpace c = true) l ->
  Forall (fun c => isWhiteSpace c = true) r ->
  trim (l ++ s ++ r) = trim s.
Proof.
  intros Hl Hr. unfold trim. rewrite (trimStart_space l _ Hl).
  induction s as [|c s IH].
  - cbn [app]. rewrite <- (app_nil_r r), (trimStart_space r [] Hr). done.
  - cbn [app trimStart]. destruct (isWhiteSpace c); [done|].
    by apply (trimEnd_space (c :: s)).
Qed.

Lemma StringToNumber_space (l s r : jsstring) :
  Forall (fun c => isWhiteSpace c = true) l ->
  Forall (fun c => isWhiteSpace c = true) r ->
  StringToNumber (l ++ s ++ r) = StringToNumber s.
Proof. intros Hl Hr. unfold StringToNumber. by rewrite trim_space. Qed.

(** Validation sees a numeric field through [Number] only. *)
Lemma coerce_number_Number (accepts_infinite : bool) (checks : list check)
    (path : string) (v v' : value) :
  Number v = Number v' ->
  coerce_number accepts_infinite checks path v
  = coerce_number accepts_infinite checks path v'.
Proof. intros E. unfold coerce_number. by rewrite E. Qed.

(** X24: white space typed around the text of a numeric field does not
    change what validation makes of the form: the same profile, or the
    same issues. A numeric field of white space only is read as the
    empty text is, as 0. *)
Theorem white_space_around_numbers (accepts_infinite : bool)
    (n g m : value) (a h w la ra lh rh lw rw : jsstring) :
  Forall (fun c => isWhiteSpace c = true) (la ++ ra ++ lh ++ rh ++ lw ++ rw) ->
  childSchema accepts_infinite
    (mkRaw n (VString (la ++ a ++ ra)) (VString (lh ++ h ++ rh))
           (VString (lw ++ w ++ rw)) g m)
  = childSchema accepts_infinite
      (mkRaw n (VString a) (VString h) (VString w) g m) /\
  Number (VString (la ++ ra)) = Fin 0.
Proof.
  intros Hs. rewrite !Forall_app in Hs.
  destruct Hs as (Hla & Hra & Hlh & Hrh & Hlw & Hrw).
  split.
  - unfold childSchema.
    cbn [raw_fullName raw_age raw_height raw_weight raw_gender
         raw_medicalNotes].
    rewrite (coerce_number_Number _ _ "age" (VString (la ++ a ++ ra))
               (VString a)) by (by apply StringToNumber_space).
    rewrite (coerce_number_Number _ _ "height" (VString (lh ++ h ++ rh))
               (VString h)) by (by apply StringToNumber_space).
    by rewrite (coerce_number_Number _ _ "weight" (VString (lw ++ w ++ rw))
                  (VString w)) by (by apply StringToNumber_space).
  - exact (StringToNumber_space la [] ra Hla Hra).
Qed.

Lemma white_space_around_numbers_witness :
  childSchema true (text_form "Al" " 5" "110 " " 18 " [] [])
  = success sample_child.
Proof.
  refine (eq_trans
            (proj1 (white_space_around_numbers true (VString (lit "Al"))
                      (VString []) (VString []) (lit "5") (lit "110")
                      (lit "18") (lit " ") [] [] (lit " ") (lit " ")
                      (lit " ") _)) eq_refl).
  vm_compute. by repeat constructor.
Defined.
